(** * SVdP content-marketing automation: embedding, publishers, vector store, crew

    A shallow embedding of the Python sources
      - [pinecone_storage_tool.py]   (embedding generator and vector-store client),
      - [facebook_publishing_tool.py] (social publisher),
      - [squarespace_publishing_tool.py] (CMS publisher),
      - [crew.py]                    (the sequential crew),
    followed by the properties established about them.

    Conventions.
      - A Python [str] is a [string]; a character is its code point, so the
        texts covered are those over U+0000..U+00FF, and the character
        classes below are Python's, restricted to that range.
      - A Python [int] is a [Z]; a Python [float] is a type [F] with the
        operations of the class [Float], whose instance is IEEE binary64
        ([PrimFloat.float]); what does not depend on rounding is proved
        for any instance.
      - Code that may raise returns a [res]; code that also performs HTTP
        requests runs in the monad [M], which threads the log of requests. *)

From Stdlib Require Import String Ascii List ZArith NArith Bool Lia Permutation.
From Stdlib Require Import DecimalString.
From Stdlib Require Import Floats.
Import ListNotations.

Open Scope string_scope.
Open Scope Z_scope.
Open Scope list_scope.

Set Warnings "-register-all".

(* ================================================================= *)
(** ** Python strings *)

Module PyStr.

Definition ord (c : ascii) : N := N_of_ascii c.
Definition chr (n : N) : ascii := ascii_of_N n.

Definition between (lo hi : N) (c : ascii) : bool :=
  ((lo <=? ord c) && (ord c <=? hi))%N.

(** [str.isspace] on one character: TAB..CR, FS..US, SPACE, NEL, NBSP. *)
Definition isspace (c : ascii) : bool :=
  between 9 13 c || between 28 32 c || (ord c =? 133)%N || (ord c =? 160)%N.

(** [str.isupper] on one character: A..Z and the Latin-1 capitals. *)
Definition isupper (c : ascii) : bool :=
  between 65 90 c || between 192 214 c || between 216 222 c.

Definition isdigit_like (c : ascii) : bool :=
  between 48 57 c || between 178 179 c || (ord c =? 185)%N || between 188 190 c.

Definition isalpha (c : ascii) : bool :=
  between 65 90 c || between 97 122 c
  || (ord c =? 170)%N || (ord c =? 181)%N || (ord c =? 186)%N
  || between 192 214 c || between 216 246 c || between 248 255 c.

(** [str.isalnum] on one character. *)
Definition isalnum (c : ascii) : bool := isalpha c || isdigit_like c.

Definition lower_char (c : ascii) : ascii :=
  if isupper c then chr (ord c + 32) else c.

(** [str.lower]. *)
Fixpoint lower (s : string) : string :=
  match s with
  | EmptyString => EmptyString
  | String c s' => String (lower_char c) (lower s')
  end.

Fixpoint lstrip (s : string) : string :=
  match s with
  | EmptyString => EmptyString
  | String c s' => if isspace c then lstrip s' else s
  end.

Fixpoint rstrip (s : string) : string :=
  match s with
  | EmptyString => EmptyString
  | String c s' =>
      match rstrip s' with
      | EmptyString => if isspace c then EmptyString else String c EmptyString
      | r => String c r
      end
  end.

(** [str.strip()] with no argument. *)
Definition strip (s : string) : string := rstrip (lstrip s).

(** [str.split()] with no argument: the maximal runs of non-whitespace. *)
Fixpoint split (s : string) : list string :=
  match s with
  | EmptyString => []
  | String c s' =>
      if isspace c then split s'
      else match s' with
           | EmptyString => [String c EmptyString]
           | String c' _ =>
               if isspace c' then String c EmptyString :: split s'
               else match split s' with
                    | w :: ws => String c w :: ws
                    | [] => [String c EmptyString]
                    end
           end
  end.

(** [len(s)]. *)
Definition len (s : string) : Z := Z.of_nat (String.length s).

(** [s.count(c)] for a one-character pattern [c]. *)
Fixpoint count (c : ascii) (s : string) : Z :=
  match s with
  | EmptyString => 0
  | String x s' => (if Ascii.eqb x c then 1 else 0) + count c s'
  end.

(** [sum(1 for c in s if p(c))]. *)
Fixpoint count_if (p : ascii -> bool) (s : string) : Z :=
  match s with
  | EmptyString => 0
  | String x s' => (if p x then 1 else 0) + count_if p s'
  end.

(** [s[:n]] for [n >= 0]. *)
Definition prefix_slice (n : nat) (s : string) : string := substring 0 n s.

(** [str(n)] for an [int]. *)
Definition str_of_int (z : Z) : string := NilEmpty.string_of_int (Z.to_int z).

(** An f-string: the concatenation of its pieces. *)
Definition fmt (pieces : list string) : string := String.concat "" pieces.

(** Python truthiness of a [str]. *)
Definition nonempty (s : string) : bool :=
  match s with EmptyString => false | _ => true end.

End PyStr.

Import PyStr.

(* ================================================================= *)
(** ** Python numbers and values *)

(** The float operations the sources use.  [of_int] is [float(n)], [fpos x]
    is the test [x > 0], [fzero x] the test [x == 0], [tenth] the literal
    [0.1]. *)
Class Float (F : Type) : Type := {
  of_int : Z -> F;
  fadd : F -> F -> F;
  fmul : F -> F -> F;
  fdiv : F -> F -> F;
  fsqrt : F -> F;
  fpos : F -> bool;
  fzero : F -> bool;
  tenth : F
}.

(** IEEE binary64, the floats of the interpreter. *)
Definition float_of_Z (z : Z) : float :=
  if z <? 0 then PrimFloat.opp (PrimFloat.of_uint63 (Uint63.of_Z (- z)))
  else PrimFloat.of_uint63 (Uint63.of_Z z).

#[export] Instance binary64 : Float float := {|
  of_int := float_of_Z;
  fadd := PrimFloat.add;
  fmul := PrimFloat.mul;
  fdiv := PrimFloat.div;
  fsqrt := PrimFloat.sqrt;
  fpos := fun x => PrimFloat.ltb PrimFloat.zero x;
  fzero := fun x => PrimFloat.eqb x PrimFloat.zero;
  tenth := PrimFloat.div PrimFloat.one (float_of_Z 10)
|}.

(** A list entry of [features]: an [int] or a [float]. *)
Inductive num (F : Type) : Type :=
| Int (z : Z)
| Flt (f : F).
Arguments Int {F} z.
Arguments Flt {F} f.

(** The Python values that occur as arguments and as decoded JSON. *)
Inductive value (F : Type) : Type :=
| VNone
| VBool (b : bool)
| VNum (n : num F)
| VStr (s : string)
| VList (l : list (value F))
| VDict (d : list (string * value F)).
Arguments VNone {F}.
Arguments VBool {F} b.
Arguments VNum {F} n.
Arguments VStr {F} s.
Arguments VList {F} l.
Arguments VDict {F} d.

(** [type(v).__name__]. *)
Definition type_name {F : Type} (v : value F) : string :=
  match v with
  | VNone => "NoneType"
  | VBool _ => "bool"
  | VNum (Int _) => "int"
  | VNum (Flt _) => "float"
  | VStr _ => "str"
  | VList _ => "list"
  | VDict _ => "dict"
  end.

(** Exception classes, as far as the handlers tell them apart.
    [KeyboardInterrupt] stands for the [BaseException]s that are not
    [Exception]s. *)
Inductive exn_class : Type :=
| Timeout
| ConnectionError
| RequestException
| JSONDecodeError
| AttributeError
| TypeError
| OtherException
| KeyboardInterrupt.

(** An exception: its class and [str(e)]. *)
Record exn : Type := mk_exn { exn_cls : exn_class; exn_msg : string }.

Definition is_Timeout (e : exn) : bool :=
  match exn_cls e with Timeout => true | _ => false end.

Definition is_ConnectionError (e : exn) : bool :=
  match exn_cls e with ConnectionError => true | _ => false end.

(** [requests.exceptions.JSONDecodeError] derives from [RequestException]
    and from [json.JSONDecodeError]. *)
Definition is_RequestException (e : exn) : bool :=
  match exn_cls e with
  | Timeout | ConnectionError | RequestException | JSONDecodeError => true
  | _ => false
  end.

Definition is_JSONDecodeError (e : exn) : bool :=
  match exn_cls e with JSONDecodeError => true | _ => false end.

Definition is_Exception (e : exn) : bool :=
  match exn_cls e with KeyboardInterrupt => false | _ => true end.

(** The [AttributeError] of [v.attr] on a value without that attribute. *)
Definition no_attribute {F : Type} (v : value F) (attr : string) : exn :=
  mk_exn AttributeError
    (fmt ["'"; type_name v; "' object has no attribute '"; attr; "'"]).

(** The result of code that may raise. *)
Inductive res (A : Type) : Type :=
| Ret (a : A)
| Raise (e : exn).
Arguments Ret {A} a.
Arguments Raise {A} e.

(** A [dict] keyed by characters, in insertion order. *)
Definition char_dict : Type := list (ascii * Z).

Fixpoint dict_get (d : char_dict) (k : ascii) (default : Z) : Z :=
  match d with
  | [] => default
  | (k', v) :: d' => if Ascii.eqb k' k then v else dict_get d' k default
  end.

Fixpoint dict_set (d : char_dict) (k : ascii) (v : Z) : char_dict :=
  match d with
  | [] => [(k, v)]
  | (k', v') :: d' =>
      if Ascii.eqb k' k then (k, v) :: d' else (k', v') :: dict_set d' k v
  end.

(* ================================================================= *)
(** ** HTTP requests, responses and the monad of the clients *)

(** What [response.json()] does: decode, or raise [JSONDecodeError]. *)
Inductive decoded (F : Type) : Type :=
| Json (v : value F)
| NotJson (msg : string).
Arguments Json {F} v.
Arguments NotJson {F} msg.

Record response (F : Type) : Type := mk_response {
  status_code : Z;
  body_json : decoded F;
  text : string;
  reason : string
}.
Arguments mk_response {F}.
Arguments status_code {F}.
Arguments body_json {F}.
Arguments text {F}.
Arguments reason {F}.

(** The [data=] (form-encoded) or [json=] argument of [requests.post]. *)
Inductive payload (F : Type) : Type :=
| FormData (fields : list (string * string))
| JsonData (v : value F).
Arguments FormData {F} fields.
Arguments JsonData {F} v.

Record request (F : Type) : Type := mk_request {
  url : string;
  headers : list (string * string);
  data : payload F;
  timeout : Z
}.
Arguments mk_request {F}.
Arguments url {F}.
Arguments headers {F}.
Arguments data {F}.
Arguments timeout {F}.

(** A computation that may raise and that appends to the log of the HTTP
    requests issued so far. *)
Definition M (F A : Type) : Type := list (request F) -> res A * list (request F).

Definition ret {F A : Type} (a : A) : M F A := fun log => (Ret a, log).

Definition raise {F A : Type} (e : exn) : M F A := fun log => (Raise e, log).

Definition bind {F A B : Type} (m : M F A) (k : A -> M F B) : M F B :=
  fun log =>
    match m log with
    | (Ret a, log') => k a log'
    | (Raise e, log') => (Raise e, log')
    end.

Definition lift {F A : Type} (r : res A) : M F A := fun log => (r, log).

Notation "x <- m ;; k" := (bind m (fun x => k))
  (at level 61, m at next level, right associativity).

(** [try: body  except C1: h1  except C2: h2 ...]: the first handler whose
    class matches runs; an exception no handler matches propagates. *)
Definition try_except {F A : Type} (body : M F A)
    (handlers : list ((exn -> bool) * (exn -> M F A))) : M F A :=
  fun log =>
    match body log with
    | (Ret a, log') => (Ret a, log')
    | (Raise e, log') =>
        match find (fun h => fst h e) handlers with
        | Some h => snd h e log'
        | None => (Raise e, log')
        end
    end.

(** [v.get(key, default)]: a lookup on a [dict], an [AttributeError] on
    anything else. *)
Fixpoint lookup {F : Type} (d : list (string * value F)) (key : string)
  : option (value F) :=
  match d with
  | [] => None
  | (k, v) :: d' => if String.eqb k key then Some v else lookup d' key
  end.

Definition get {F : Type} (v : value F) (key : string) (default : value F)
  : res (value F) :=
  match v with
  | VDict d => Ret (match lookup d key with Some x => x | None => default end)
  | _ => Raise (no_attribute v "get")
  end.

(** [response.json()]. *)
Definition json {F : Type} (r : response F) : res (value F) :=
  match body_json r with
  | Json v => Ret v
  | NotJson msg => Raise (mk_exn JSONDecodeError msg)
  end.

(** Python truthiness. *)
Definition truthy {F : Type} `{Float F} (v : value F) : bool :=
  match v with
  | VNone => false
  | VBool b => b
  | VNum (Int z) => negb (z =? 0)
  | VNum (Flt f) => negb (fzero f)
  | VStr s => nonempty s
  | VList l => match l with [] => false | _ => true end
  | VDict d => match d with [] => false | _ => true end
  end.

(** Truthiness of the result of [os.getenv(name)]. *)
Definition present (o : option string) : bool :=
  match o with Some s => nonempty s | None => false end.

(** The characters U+2705 and U+274C of the result messages lie outside the
    8-bit range of [ascii]; they are written by their UTF-8 bytes. *)
Definition CHECK : string := String "226" (String "156" (String "133" EmptyString)).
Definition CROSS : string := String "226" (String "157" (String "140" EmptyString)).

(** The escape [\n]. *)
Definition NL : string := String "010" EmptyString.

(** [requests.post]: the request is logged and the network [net] answers
    with a response or an exception. *)
Definition post {F : Type} (net : request F -> res (response F))
    (req : request F) : M F (response F) :=
  fun log => (net req, log ++ [req]).

(** [str(v)], as an f-string formats [v]; [repr] is Python's [repr] for
    the values whose text is not spelled out here. *)
Definition str {F : Type} (repr : value F -> string) (v : value F) : string :=
  match v with
  | VStr s => s
  | VNum (Int z) => str_of_int z
  | VNone => "None"
  | VBool true => "True"
  | VBool false => "False"
  | _ => repr v
  end.

(* ================================================================= *)
(** ** pinecone_storage_tool.py *)

Module PineconeStorageTool.

Section Embedding.

Context {F : Type} `{Float F}.

Definition to_float (x : num F) : F :=
  match x with Int z => of_int z | Flt f => f end.

(** [x + y], [x * y] on numbers: exact on two [int]s, float otherwise. *)
Definition num_add (x y : num F) : num F :=
  match x, y with
  | Int a, Int b => Int (a + b)
  | _, _ => Flt (fadd (to_float x) (to_float y))
  end.

Definition num_mul (x y : num F) : num F :=
  match x, y with
  | Int a, Int b => Int (a * b)
  | _, _ => Flt (fmul (to_float x) (to_float y))
  end.

(** [a / b] on two [int]s (true division). *)
Definition truediv (a b : Z) : F := fdiv (of_int a) (of_int b).

(** The loop [for char in text: if char.isalnum() or char.isspace(): ...]. *)
Fixpoint char_freq_loop (text : string) (char_freq : char_dict) : char_dict :=
  match text with
  | EmptyString => char_freq
  | String char text' =>
      char_freq_loop text'
        (if isalnum char || isspace char
         then dict_set char_freq char (dict_get char_freq char 0 + 1)
         else char_freq)
  end.

(** The seven scalar features, computed on the normalized [text]. *)
Definition scalar_features (text : string) : list Z :=
  [ len text;
    Z.of_nat (length (split text));
    count "." text;
    count "!" text;
    count "?" text;
    count_if isupper text;
    count " " text ].

(** [chr(ord('a') + i) for i in range(26)] and [str(i) for i in range(10)]. *)
Definition letters : list ascii :=
  map (fun i => chr (ord "a" + N.of_nat i)) (seq 0 26).

Definition digits : list ascii :=
  map (fun i => chr (ord "0" + N.of_nat i)) (seq 0 10).

(** [while len(features) < dimension: features.append(0.0)]; the loop runs
    [dimension - len(features)] times when that is positive. *)
Fixpoint pad_loop (n : nat) (features : list (num F)) : list (num F) :=
  match n with
  | O => features
  | S n' => pad_loop n' (features ++ [Flt (of_int 0)])
  end.

Definition pad (features : list (num F)) (dimension : Z) : list (num F) :=
  pad_loop (Z.to_nat (dimension - Z.of_nat (length features))) features.

(** [features[:dimension]]; a negative stop counts from the end. *)
Definition slice_to (features : list (num F)) (dimension : Z) : list (num F) :=
  if dimension <? 0
  then firstn (Z.to_nat (Z.of_nat (length features) + dimension)) features
  else firstn (Z.to_nat dimension) features.

(** [sum(x * x for x in features)]. *)
Definition sum_squares (features : list (num F)) : num F :=
  fold_left (fun acc x => num_add acc (num_mul x x)) features (Int 0).

(** The feature list before the normalization step, for the already
    normalized [text]. *)
Definition feature_list (text : string) (dimension : Z) : list (num F) :=
  let char_freq := char_freq_loop text [] in
  let features := map Int (scalar_features text) in
  let total_chars := if 0 <? len text then len text else 1 in
  let features :=
    features ++ map (fun char => Flt (truediv (dict_get char_freq char 0) total_chars)) letters in
  let features :=
    features ++ map (fun char => Flt (truediv (dict_get char_freq char 0) total_chars)) digits in
  let features := pad features dimension in
  slice_to features dimension.

(** The normalization step. *)
Definition normalize (features : list (num F)) : list (num F) :=
  let magnitude := fsqrt (to_float (sum_squares features)) in
  if fpos magnitude
  then map (fun x => Flt (fdiv (to_float x) magnitude)) features
  else features.

(** The body of the [try]: [text.lower()] raises on anything but a [str]. *)
Definition create_simple_embedding_body (text : value F) (dimension : Z)
  : res (list (num F)) :=
  match text with
  | VStr s =>
      let text := strip (lower s) in
      Ret (normalize (feature_list text dimension))
  | _ => Raise (no_attribute text "lower")
  end.

(** [[0.1] * dimension]. *)
Definition fallback (dimension : Z) : list (num F) :=
  repeat (Flt tenth) (Z.to_nat dimension).

Definition _create_simple_embedding (text : value F) (dimension : Z)
  : res (list (num F)) :=
  match create_simple_embedding_body text dimension with
  | Ret features => Ret features
  | Raise e => if is_Exception e then Ret (fallback dimension) else Raise e
  end.

End Embedding.

Section Run.

Context {F : Type} `{Float F}.

(** [os.getenv], the network behind [requests.post], and Python's
    [repr]. *)
Variable getenv : string -> option string.
Variable net : request F -> res (response F).
Variable repr : value F -> string.

Definition _get_pinecone_host (environment index_name : string) : string :=
  fmt ["https://"; index_name; "-"; environment; ".svc.pinecone.io"].

Definition missing_environment : string :=
  "Error: Missing required environment variables (PINECONE_API_KEY, PINECONE_ENVIRONMENT, PINECONE_INDEX_NAME)".

Definition bad_content_type : string :=
  "Error: content_type must be either 'facebook_post' or 'blog_post'".

Definition allowed_content_type (content_type : string) : bool :=
  existsb (String.eqb content_type) ["facebook_post"; "blog_post"].

(** The [else] branch of the status test: the body as JSON when it
    decodes, the raw text under the bare [except]. *)
Definition error_message (r : response F) : string :=
  let error_msg := fmt ["Pinecone API error (status "; str_of_int (status_code r); ")"] in
  match json r with
  | Ret error_detail => fmt [error_msg; ": "; str repr error_detail]
  | Raise _ => fmt [error_msg; ": "; text r]
  end.

Definition run_body (content_id content_text : string)
    (performance_metrics : value F) (content_type : string)
    (story_characteristics : value F) : M F string :=
  let api_key := getenv "PINECONE_API_KEY" in
  let environment := getenv "PINECONE_ENVIRONMENT" in
  let index_name := getenv "PINECONE_INDEX_NAME" in
  match api_key, environment, index_name with
  | Some api_key, Some environment, Some index_name =>
      if negb (forallb nonempty [api_key; environment; index_name])
      then ret missing_environment
      else if negb (allowed_content_type content_type)
      then ret bad_content_type
      else
        embedding <- lift (_create_simple_embedding (VStr content_text) 384) ;;
        let metadata :=
          VDict [ ("content_type", VStr content_type);
                  ("content_text", VStr (prefix_slice 1000 content_text));
                  ("performance_metrics", performance_metrics);
                  ("story_characteristics", story_characteristics);
                  ("text_length", VNum (Int (len content_text)));
                  ("word_count", VNum (Int (Z.of_nat (length (split content_text))))) ] in
        let vector_data :=
          VDict [ ("vectors",
                   VList [ VDict [ ("id", VStr content_id);
                                   ("values", VList (map VNum embedding));
                                   ("metadata", metadata) ] ]) ] in
        let host := _get_pinecone_host environment index_name in
        let upsert_url := fmt [host; "/vectors/upsert"] in
        let headers := [ ("Api-Key", api_key); ("Content-Type", "application/json") ] in
        response <- post net (mk_request upsert_url headers (JsonData vector_data) 30) ;;
        if status_code response =? 200
        then
          result <- lift (json response) ;;
          upserted_count <- lift (get result "upsertedCount" (VNum (Int 0))) ;;
          ret (fmt [ "Success: Stored performance data for content_id '"; content_id;
                     "'. Upserted "; str repr upserted_count;
                     " vector(s) in Pinecone index '"; index_name; "'." ])
        else ret (fmt ["Error: "; error_message response])
  | _, _, _ => ret missing_environment
  end.

Definition _run (content_id content_text : string)
    (performance_metrics : value F) (content_type : string)
    (story_characteristics : value F) : M F string :=
  try_except
    (run_body content_id content_text performance_metrics content_type
       story_characteristics)
    [ (is_Timeout,
       fun _ => ret "Error: Request to Pinecone API timed out. Please try again.");
      (is_ConnectionError,
       fun _ => ret "Error: Could not connect to Pinecone API. Please check your internet connection and Pinecone configuration.");
      (is_RequestException,
       fun e => ret (fmt ["Error: Request failed - "; exn_msg e]));
      (is_Exception,
       fun e => ret (fmt ["Error: An unexpected error occurred - "; exn_msg e])) ].

End Run.

End PineconeStorageTool.

(* ================================================================= *)
(** ** facebook_publishing_tool.py *)

Module FacebookPublishingTool.

Section Run.

Context {F : Type} `{Float F}.

Variable getenv : string -> option string.
Variable net : request F -> res (response F).
Variable repr : value F -> string.

(** [os.getenv(name, '')]. *)
Definition getenv_or_empty (name : string) : string :=
  match getenv name with Some s => s | None => "" end.

(** [a or b] on two [str]s. *)
Definition or_else (a b : string) : string := if nonempty a then a else b.

Definition token_required : string :=
  "Error: Facebook page access token is required. Please provide it as parameter or set FACEBOOK_PAGE_ACCESS_TKN environment variable.".

Definition page_id_required : string :=
  "Error: Facebook page ID is required. Please provide it as parameter or set FACEBOOK_PAGE_ID environment variable.".

Definition message_empty : string :=
  "Error: Message content cannot be empty.".

Definition invalid_token : string :=
  fmt [CROSS; " Facebook API Error (401): Invalid or expired access token. Please check your Facebook page access token."].

Definition insufficient_permissions : string :=
  fmt [CROSS; " Facebook API Error (403): Insufficient permissions. Make sure your access token has 'pages_manage_posts' permission."].

Definition page_not_found (fb_page_id : string) : string :=
  fmt [CROSS; " Facebook API Error (404): Page not found. Please verify the page ID: "; fb_page_id].

Definition rate_limited : string :=
  fmt [CROSS; " Facebook API Error (429): Rate limit exceeded. Please wait before making another request."].

(** [except json.JSONDecodeError: return fallback]. *)
Definition or_if_not_json (body : M F string) (fallback : string) : M F string :=
  try_except body [ (is_JSONDecodeError, fun _ => ret fallback) ].

(** The status dispatch that follows the request. *)
Definition on_response (fb_page_id : string) (response : response F) : M F string :=
  let status := status_code response in
  if status =? 200 then
    or_if_not_json
      (response_data <- lift (json response) ;;
       post_id <- lift (get response_data "id" (VStr "Unknown")) ;;
       ret (fmt [CHECK; " Successfully published to Facebook! Post ID: "; str repr post_id]))
      (fmt [CHECK; " Successfully published to Facebook! (Post ID unavailable)"])
  else if status =? 400 then
    or_if_not_json
      (error_data <- lift (json response) ;;
       error <- lift (get error_data "error" (VDict [])) ;;
       error_message <- lift (get error "message" (VStr "Bad request")) ;;
       ret (fmt [CROSS; " Facebook API Error (400): "; str repr error_message]))
      (fmt [CROSS; " Facebook API Error (400): Invalid request parameters"])
  else if status =? 401 then ret invalid_token
  else if status =? 403 then ret insufficient_permissions
  else if status =? 404 then ret (page_not_found fb_page_id)
  else if status =? 429 then ret rate_limited
  else
    or_if_not_json
      (error_data <- lift (json response) ;;
       error <- lift (get error_data "error" (VDict [])) ;;
       error_message <-
         lift (get error "message" (VStr (fmt ["HTTP "; str_of_int status]))) ;;
       ret (fmt [CROSS; " Facebook API Error ("; str_of_int status; "): "; str repr error_message]))
      (fmt [CROSS; " Facebook API Error: HTTP "; str_of_int status; " - "; reason response]).

Definition run_body (message page_access_token page_id : string) : M F string :=
  let access_token := or_else page_access_token (getenv_or_empty "FACEBOOK_PAGE_ACCESS_TKN") in
  let fb_page_id := or_else page_id (getenv_or_empty "FACEBOOK_PAGE_ID") in
  if negb (nonempty access_token) then ret token_required
  else if negb (nonempty fb_page_id) then ret page_id_required
  else if negb (nonempty message) || negb (nonempty (strip message)) then ret message_empty
  else
    let api_url := fmt ["https://graph.facebook.com/v18.0/"; fb_page_id; "/feed"] in
    let payload := [ ("message", strip message); ("access_token", access_token) ] in
    response <-
      post net (mk_request api_url
              [ ("Content-Type", "application/x-www-form-urlencoded") ]
              (FormData payload) 30) ;;
    on_response fb_page_id response.

Definition _run (message page_access_token page_id : string) : M F string :=
  try_except (run_body message page_access_token page_id)
    [ (is_Timeout,
       fun _ => ret (fmt [CROSS; " Error: Request timed out. Facebook API may be temporarily unavailable."]));
      (is_ConnectionError,
       fun _ => ret (fmt [CROSS; " Error: Failed to connect to Facebook API. Please check your internet connection."]));
      (is_RequestException,
       fun e => ret (fmt [CROSS; " Network Error: "; exn_msg e]));
      (is_Exception,
       fun e => ret (fmt [CROSS; " Unexpected Error: "; exn_msg e])) ].

End Run.

End FacebookPublishingTool.

(* ================================================================= *)
(** ** squarespace_publishing_tool.py *)

Module SquarespacePublishingTool.

Section Run.

Context {F : Type} `{Float F}.

Variable getenv : string -> option string.
Variable net : request F -> res (response F).
Variable repr : value F -> string.

Definition api_key_required : string :=
  "Error: SQUARESPACE_API_KEY environment variable is required".

Definition site_id_required : string :=
  "Error: SQUARESPACE_SITE_ID environment variable is required".

Definition unauthorized : string :=
  fmt [CROSS; " Error: Unauthorized. Please check your SQUARESPACE_API_KEY."].

Definition forbidden : string :=
  fmt [CROSS; " Error: Forbidden. Your API key may not have permission to create blog posts."].

Definition site_not_found : string :=
  fmt [CROSS; " Error: Site not found. Please check your SQUARESPACE_SITE_ID."].

Definition rate_limited : string :=
  fmt [CROSS; " Error: Rate limit exceeded. Please try again later."].

(** [except json.JSONDecodeError: return fallback]. *)
Definition or_if_not_json (body : M F string) (fallback : string) : M F string :=
  try_except body [ (is_JSONDecodeError, fun _ => ret fallback) ].

(** The dictionary [post_data], with the optional fields added when truthy. *)
Definition post_data (title body : string) (excerpt : option string)
    (tags : option (list string)) : value F :=
  let base :=
    [ ("title", VStr title); ("body", VStr body);
      ("publishOn", VStr "now"); ("type", VStr "text") ] in
  let with_excerpt :=
    match excerpt with
    | Some e => if nonempty e then base ++ [("excerpt", VStr e)] else base
    | None => base
    end in
  match tags with
  | Some (t :: ts) => VDict (with_excerpt ++ [("tags", VList (map VStr (t :: ts)))])
  | _ => VDict with_excerpt
  end.

(** The status dispatch that follows the request. *)
Definition on_response (title : string) (response : response F) : M F string :=
  let status := status_code response in
  if (status =? 200) || (status =? 201) then
    or_if_not_json
      (response_data <- lift (json response) ;;
       post_id <- lift (get response_data "id" (VStr "")) ;;
       post_url <- lift (get response_data "fullUrl" (VStr "")) ;;
       if truthy post_url
       then ret (fmt [ CHECK; " Blog post published successfully!"; NL;
                       "Title: "; title; NL;
                       "Post ID: "; str repr post_id; NL;
                       "Public URL: "; str repr post_url ])
       else ret (fmt [ CHECK; " Blog post created successfully with ID: ";
                       str repr post_id; ", but URL not available in response." ]))
      (fmt [ CHECK; " Blog post appears to have been created (HTTP ";
             str_of_int status; "), but response format was unexpected." ])
  else if status =? 400 then
    or_if_not_json
      (error_data <- lift (json response) ;;
       error_message <- lift (get error_data "message" (VStr "Bad request")) ;;
       ret (fmt [CROSS; " Error creating blog post: "; str repr error_message; " (HTTP 400)"]))
      (fmt [CROSS; " Error creating blog post: Bad request (HTTP 400)"])
  else if status =? 401 then ret unauthorized
  else if status =? 403 then ret forbidden
  else if status =? 404 then ret site_not_found
  else if status =? 429 then ret rate_limited
  else
    or_if_not_json
      (error_data <- lift (json response) ;;
       error_message <-
         lift (get error_data "message" (VStr (fmt ["HTTP "; str_of_int status]))) ;;
       ret (fmt [CROSS; " Error creating blog post: "; str repr error_message]))
      (fmt [ CROSS; " Error creating blog post: HTTP "; str_of_int status; " - ";
             prefix_slice 200 (text response) ]).

Definition run_body (title body : string) (excerpt : option string)
    (tags : option (list string)) : M F string :=
  let api_key := getenv "SQUARESPACE_API_KEY" in
  let site_id := getenv "SQUARESPACE_SITE_ID" in
  match api_key with
  | Some api_key =>
      if negb (nonempty api_key) then ret api_key_required
      else
        match site_id with
        | Some site_id =>
            if negb (nonempty site_id) then ret site_id_required
            else
              let url := fmt ["https://api.squarespace.com/1.0/sites/"; site_id; "/blog/posts"] in
              let headers :=
                [ ("Authorization", fmt ["Bearer "; api_key]);
                  ("Content-Type", "application/json");
                  ("User-Agent", "CrewAI-SquarespacePublishingTool/1.0") ] in
              response <-
                post net (mk_request url headers (JsonData (post_data title body excerpt tags)) 30) ;;
              on_response title response
        | None => ret site_id_required
        end
  | None => ret api_key_required
  end.

Definition _run (title body : string) (excerpt : option string)
    (tags : option (list string)) : M F string :=
  try_except (run_body title body excerpt tags)
    [ (is_Timeout,
       fun _ => ret (fmt [CROSS; " Error: Request timed out. Please try again."]));
      (is_ConnectionError,
       fun _ => ret (fmt [CROSS; " Error: Could not connect to Squarespace API. Please check your internet connection."]));
      (is_RequestException,
       fun e => ret (fmt [CROSS; " Error making API request: "; exn_msg e]));
      (is_Exception,
       fun e => ret (fmt [CROSS; " Unexpected error: "; exn_msg e])) ].

End Run.

End SquarespacePublishingTool.

(* ================================================================= *)
(** ** crew.py *)

Module Crew.

(** The methods decorated with [@task], in the order of their definition. *)
Inductive Task : Type :=
| retrieve_optimal_story_from_excel_database
| research_high_performance_content_patterns
| generate_facebook_content
| generate_blog_content
| brand_compliance_review
| send_approval_request
| publish_approved_content
| track_performance_and_store_in_pinecone.

Inductive Process : Type :=
| sequential
| hierarchical.

Record Crew : Type := mk_Crew {
  tasks : list Task;
  process : Process;
  verbose : bool
}.

(** [self.tasks], as the [@task] decorators collect it. *)
Definition self_tasks : list Task :=
  [ retrieve_optimal_story_from_excel_database;
    research_high_performance_content_patterns;
    generate_facebook_content;
    generate_blog_content;
    brand_compliance_review;
    send_approval_request;
    publish_approved_content;
    track_performance_and_store_in_pinecone ].

(** The method [crew]. *)
Definition crew : Crew :=
  {| tasks := self_tasks; process := sequential; verbose := true |}.

Section Kickoff.

(** What the agent of a task returns (the framework's [TaskOutput]: the
    text the agent wrote, with a structured value when one is asked for). *)
Variable Output : Type.

(** The agents: from the outputs of the tasks before it, the agent of a
    task returns an output or raises (a tool or model failure). *)
Variable execute : Task -> list Output -> res Output.

(** [process=Process.sequential]: the framework executes the tasks of the
    list one after another, each with the outputs so far as context, and
    an exception raised in a task ends the run there.  Every task of the
    source is a plain [Task]: none carries a condition under which it is
    skipped, and nothing in the source inspects an output between two
    tasks.  The result lists the tasks invoked, each with what it returned
    or raised. *)
Fixpoint run_sequential (todo : list Task) (context : list Output)
  : list (Task * res Output) :=
  match todo with
  | [] => []
  | t :: todo' =>
      match execute t context with
      | Ret output => (t, Ret output) :: run_sequential todo' (context ++ [output])
      | Raise e => [(t, Raise e)]
      end
  end.

(** [Crew.kickoff] for the process the source selects. *)
Definition kickoff (c : Crew) : option (list (Task * res Output)) :=
  match process c with
  | sequential => Some (run_sequential (tasks c) [])
  | hierarchical => None
  end.

End Kickoff.

End Crew.

(* ================================================================= *)
(** ** Vocabulary of the statements *)

(** A string of whitespace only. *)
Fixpoint blank (s : string) : bool :=
  match s with
  | EmptyString => true
  | String c s' => isspace c && blank s'
  end.

(** Two characters that are the same up to letter case. *)
Definition same_letter (c c' : ascii) : Prop :=
  c = c' \/ (isupper c = true /\ c' = lower_char c)
         \/ (isupper c' = true /\ c = lower_char c').

(** [t'] differs from [t] only in letter case. *)
Inductive case_variant : string -> string -> Prop :=
| case_variant_nil : case_variant EmptyString EmptyString
| case_variant_cons (c c' : ascii) (t t' : string) :
    same_letter c c' -> case_variant t t' ->
    case_variant (String c t) (String c' t').

(** [t'] differs from [t] only in leading and trailing whitespace. *)
Definition padding_variant (t t' : string) : Prop :=
  exists l r : string,
    blank l = true /\ blank r = true /\ t' = (l ++ t ++ r)%string.

(** What the social publisher validates, and the one request it issues. *)
Definition facebook_access_token (getenv : string -> option string)
    (page_access_token : string) : string :=
  FacebookPublishingTool.or_else page_access_token
    (FacebookPublishingTool.getenv_or_empty getenv "FACEBOOK_PAGE_ACCESS_TKN").

Definition facebook_page_id (getenv : string -> option string)
    (page_id : string) : string :=
  FacebookPublishingTool.or_else page_id
    (FacebookPublishingTool.getenv_or_empty getenv "FACEBOOK_PAGE_ID").

Definition facebook_validates (getenv : string -> option string)
    (message page_access_token page_id : string) : bool :=
  nonempty (facebook_access_token getenv page_access_token)
  && nonempty (facebook_page_id getenv page_id)
  && nonempty (strip message).

Definition facebook_request {F : Type} (getenv : string -> option string)
    (message page_access_token page_id : string) : request F :=
  mk_request
    (fmt ["https://graph.facebook.com/v18.0/"; facebook_page_id getenv page_id; "/feed"])
    [ ("Content-Type", "application/x-www-form-urlencoded") ]
    (FormData [ ("message", strip message);
                ("access_token", facebook_access_token getenv page_access_token) ])
    30.

(** What the CMS publisher validates, and the one request it issues. *)
Definition squarespace_validates (getenv : string -> option string) : bool :=
  present (getenv "SQUARESPACE_API_KEY") && present (getenv "SQUARESPACE_SITE_ID").

Definition setting (getenv : string -> option string) (name : string) : string :=
  match getenv name with Some s => s | None => EmptyString end.

Definition squarespace_request {F : Type} (getenv : string -> option string)
    (title body : string) (excerpt : option string) (tags : option (list string))
  : request F :=
  mk_request
    (fmt ["https://api.squarespace.com/1.0/sites/"; setting getenv "SQUARESPACE_SITE_ID";
          "/blog/posts"])
    [ ("Authorization", fmt ["Bearer "; setting getenv "SQUARESPACE_API_KEY"]);
      ("Content-Type", "application/json");
      ("User-Agent", "CrewAI-SquarespacePublishingTool/1.0") ]
    (JsonData (SquarespacePublishingTool.post_data title body excerpt tags))
    30.

(** The vector store has its three settings. *)
Definition pinecone_configured (getenv : string -> option string) : bool :=
  present (getenv "PINECONE_API_KEY")
  && present (getenv "PINECONE_ENVIRONMENT")
  && present (getenv "PINECONE_INDEX_NAME").

(** The network raises nothing but [Exception]s. *)
Definition raises_exceptions_only {F : Type} (net : request F -> res (response F)) : Prop :=
  forall req e, net req = Raise e -> is_Exception e = true.

(** A computation that issues no request. *)
Definition quiet {F A : Type} (m : M F A) : Prop :=
  forall log, snd (m log) = log.

(** A computation that raises nothing but [Exception]s. *)
Definition guarded {F A : Type} (m : M F A) : Prop :=
  forall log e log', m log = (Raise e, log') -> is_Exception e = true.

Definition guarded_res {A : Type} (r : res A) : Prop :=
  match r with Ret _ => True | Raise e => is_Exception e = true end.

(** A computation that returns a value and issues no request. *)
Definition returns {F A : Type} (m : M F A) : Prop :=
  exists a, forall log, m log = (Ret a, log).

(** Concrete settings for the examples: an empty environment, one with
    every setting present, a network that times out, one that answers every
    request with the same response, and a [repr] that prints nothing. *)
Definition no_settings : string -> option string := fun _ => None.

Definition all_settings : string -> option string :=
  fun name =>
    match find (fun kv => String.eqb (fst kv) name)
            [ ("FACEBOOK_PAGE_ACCESS_TKN", "EAAB-token");
              ("FACEBOOK_PAGE_ID", "1234567890");
              ("SQUARESPACE_API_KEY", "sq-key");
              ("SQUARESPACE_SITE_ID", "site-1");
              ("PINECONE_API_KEY", "pc-key");
              ("PINECONE_ENVIRONMENT", "us-west1-gcp");
              ("PINECONE_INDEX_NAME", "stories") ] with
    | Some kv => Some (snd kv)
    | None => None
    end.

Definition times_out : request float -> res (response float) :=
  fun _ => Raise (mk_exn Timeout "HTTPSConnectionPool: Read timed out.").

Definition answers (r : response float) : request float -> res (response float) :=
  fun _ => Ret r.

Definition no_repr : value float -> string := fun _ => EmptyString.

(** A response whose JSON body carries its error as a string. *)
Definition string_error (status : Z) : response float :=
  mk_response status (Json (VDict [("error", VStr "Invalid parameter")])) "" "".

(** The tasks a run invoked, whether a task returned an output in it, and
    whether no task raised in it. *)
Definition invoked {Output : Type} (run : list (Crew.Task * res Output)) : list Crew.Task :=
  map fst run.

Definition returned {Output : Type} (t : Crew.Task) (run : list (Crew.Task * res Output))
  : Prop :=
  exists output, In (t, Ret output) run.

Definition completed {Output : Type} (run : list (Crew.Task * res Output)) : bool :=
  forallb (fun step => match snd step with Ret _ => true | Raise _ => false end) run.

(** The verdict of the specification's data model, and outputs that carry
    one beside their text. *)
Record ComplianceVerdict : Type := mk_ComplianceVerdict {
  approved : bool;
  notes : string
}.

Record VerdictOutput : Type := mk_VerdictOutput {
  raw : string;
  verdict : option ComplianceVerdict
}.

(** Agents that all return, the compliance review with a verdict that does
    not approve. *)
Definition rejecting_agents (t : Crew.Task) (context : list VerdictOutput)
  : res VerdictOutput :=
  match t with
  | Crew.brand_compliance_review =>
      Ret (mk_VerdictOutput "The draft names a client; it must not be published."
             (Some (mk_ComplianceVerdict false "names a client")))
  | _ => Ret (mk_VerdictOutput "done" None)
  end.

(** The frequency feature of a character: its number of occurrences over
    the length of the text, the length counted as 1 for the empty text. *)
Definition frequency {F : Type} `{Float F} (text : string) (c : ascii) : num F :=
  Flt (PineconeStorageTool.truediv (count c text) (Z.max 1 (len text))).

(** The 43 features followed by the padding a dimension asks for. *)
Definition feature_table {F : Type} `{Float F} (text : string) (dimension : Z)
  : list (num F) :=
  map Int (PineconeStorageTool.scalar_features text)
  ++ map (frequency text) (PineconeStorageTool.letters ++ PineconeStorageTool.digits)
  ++ repeat (Flt (of_int 0)) (Z.to_nat (dimension - 43)).

(** The number of words of a text, as [len(text.split())]. *)
Definition word_count (text : string) : Z := Z.of_nat (length (split text)).

(** What a client answers when the network raises [e]: the messages of
    its four handlers, in the order the handlers are tried; a signal that
    is not an [Exception] is not caught. *)
Definition reported (on_timeout on_connection on_request on_other : string)
    (e : exn) : res string :=
  match exn_cls e with
  | Timeout => Ret on_timeout
  | ConnectionError => Ret on_connection
  | RequestException | JSONDecodeError => Ret (fmt [on_request; exn_msg e])
  | KeyboardInterrupt => Raise e
  | AttributeError | TypeError | OtherException => Ret (fmt [on_other; exn_msg e])
  end.

(** The one request of the vector-store client. *)
Definition pinecone_request {F : Type} `{Float F} (getenv : string -> option string)
    (content_id content_text : string) (performance_metrics : value F)
    (content_type : string) (story_characteristics : value F)
    (embedding : list (num F)) : request F :=
  mk_request
    (fmt [ PineconeStorageTool._get_pinecone_host
             (setting getenv "PINECONE_ENVIRONMENT") (setting getenv "PINECONE_INDEX_NAME");
           "/vectors/upsert" ])
    [ ("Api-Key", setting getenv "PINECONE_API_KEY");
      ("Content-Type", "application/json") ]
    (JsonData
       (VDict
          [ ("vectors",
             VList
               [ VDict
                   [ ("id", VStr content_id);
                     ("values", VList (map VNum embedding));
                     ("metadata",
                      VDict
                        [ ("content_type", VStr content_type);
                          ("content_text", VStr (prefix_slice 1000 content_text));
                          ("performance_metrics", performance_metrics);
                          ("story_characteristics", story_characteristics);
                          ("text_length", VNum (Int (len content_text)));
                          ("word_count", VNum (Int (word_count content_text))) ]) ] ]) ]))
    30.

(** The embedding the vector-store client computes for a text. *)
Definition stored_embedding {F : Type} `{Float F} (content_text : string) : list (num F) :=
  PineconeStorageTool.normalize
    (PineconeStorageTool.feature_list (strip (lower content_text)) 384).

(** What the vector-store client makes of a response. *)
Definition pinecone_outcome {F : Type} (repr : value F -> string)
    (content_id index_name : string) (r : response F) : res string :=
  if status_code r =? 200 then
    match body_json r with
    | Json (VDict d) =>
        Ret (fmt [ "Success: Stored performance data for content_id '"; content_id;
                   "'. Upserted ";
                   str repr (match lookup d "upsertedCount" with
                             | Some n => n
                             | None => VNum (Int 0)
                             end);
                   " vector(s) in Pinecone index '"; index_name; "'." ])
    | Json v =>
        Ret (fmt [ "Error: An unexpected error occurred - '"; type_name v;
                   "' object has no attribute 'get'" ])
    | NotJson msg => Ret (fmt ["Error: Request failed - "; msg])
    end
  else
    Ret (fmt [ "Error: ";
               fmt [ fmt ["Pinecone API error (status "; str_of_int (status_code r); ")"];
                     ": ";
                     match body_json r with
                     | Json v => str repr v
                     | NotJson _ => text r
                     end ] ]).

(** Further concrete settings for the examples: engagement metrics, a
    network that cannot connect, and three responses. *)
Definition sample_metrics : value float :=
  VDict [("likes", VNum (Int 12)); ("shares", VNum (Int 3))].

Definition unreachable : request float -> res (response float) :=
  fun _ => Raise (mk_exn ConnectionError "Max retries exceeded").

Definition posted : response float :=
  mk_response 200 (Json (VDict [("id", VStr "1234567890_42")])) "" "OK".

Definition upserted : response float :=
  mk_response 200 (Json (VDict [("upsertedCount", VNum (Int 1))])) "" "OK".

Definition unavailable : response float :=
  mk_response 503 (NotJson "Expecting value") "Service Unavailable" "Service Unavailable".

Definition blog_created : response float :=
  mk_response 201
    (Json (VDict [("id", VStr "5f1"); ("fullUrl", VStr "https://example.org/blog/a-story")]))
    "" "Created".

(** An entry that is zero: the [int] 0 or the [float] 0.0. *)
Definition zero_entry (x : num float) : Prop := x = Int 0 \/ x = Flt PrimFloat.zero.

(** Two error responses: a 400 whose [error] is an object, and a 500 whose
    body is a page of HTML. *)
Definition bad_token : response float :=
  mk_response 400
    (Json (VDict [("error", VDict [("message", VStr "Invalid OAuth access token.")])]))
    "" "Bad Request".

Definition server_error : response float :=
  mk_response 500 (NotJson "Expecting value") "<html>Internal Server Error</html>"
    "Internal Server Error".

(* ================================================================= *)
(** * Properties *)

(** ** Strings *)

Ltac each_char c :=
  destruct c as [[] [] [] [] [] [] [] []]; vm_compute; try reflexivity; try discriminate.

Lemma isupper_lower_char (c : ascii) : isupper (lower_char c) = false.
Proof. each_char c. Qed.

Lemma lower_char_fixes_spaces (c : ascii) : isspace c = true -> lower_char c = c.
Proof. each_char c. Qed.

Lemma lower_char_idempotent (c : ascii) : lower_char (lower_char c) = lower_char c.
Proof. unfold lower_char at 1. now rewrite isupper_lower_char. Qed.

Lemma count_if_nonneg (p : ascii -> bool) (s : string) : 0 <= count_if p s.
Proof. induction s as [|c s IH]; simpl; [lia | destruct (p c); lia]. Qed.

Lemma count_if_lstrip (p : ascii -> bool) (s : string) :
  count_if p (lstrip s) <= count_if p s.
Proof.
  induction s as [|c s IH]; simpl; [lia|].
  destruct (isspace c); simpl; destruct (p c); lia.
Qed.

Lemma count_if_rstrip (p : ascii -> bool) (s : string) :
  count_if p (rstrip s) <= count_if p s.
Proof.
  induction s as [|c s IH]; simpl; [lia|].
  pose proof (count_if_nonneg p s) as Hs.
  destruct (rstrip s) as [|c' r] eqn:E.
  - destruct (isspace c); simpl in *; destruct (p c); lia.
  - change (count_if p (String c (String c' r))) with
      ((if p c then 1 else 0) + count_if p (String c' r)).
    lia.
Qed.

Lemma count_if_lower (s : string) : count_if isupper (lower s) = 0.
Proof.
  induction s as [|c s IH]; simpl; [reflexivity|].
  now rewrite isupper_lower_char, IH.
Qed.

Lemma no_upper_after_normalization (s : string) :
  count_if isupper (strip (lower s)) = 0.
Proof.
  unfold strip.
  pose proof (count_if_rstrip isupper (lstrip (lower s))).
  pose proof (count_if_lstrip isupper (lower s)).
  pose proof (count_if_nonneg isupper (rstrip (lstrip (lower s)))).
  pose proof (count_if_lower s).
  lia.
Qed.

Lemma same_letter_lower (c c' : ascii) :
  same_letter c c' -> lower_char c = lower_char c'.
Proof.
  intros [-> | [[_ ->] | [_ ->]]];
    [reflexivity | now rewrite lower_char_idempotent
                 | now rewrite lower_char_idempotent].
Qed.

Lemma case_variant_lower (t t' : string) :
  case_variant t t' -> lower t = lower t'.
Proof.
  induction 1 as [|c c' t t' Hc _ IH]; simpl; [reflexivity|].
  now rewrite (same_letter_lower _ _ Hc), IH.
Qed.

Lemma lower_app (a b : string) : lower (a ++ b) = (lower a ++ lower b)%string.
Proof. induction a as [|c a IH]; simpl; [reflexivity | now rewrite IH]. Qed.

Lemma blank_lower (s : string) : blank s = true -> lower s = s.
Proof.
  induction s as [|c s IH]; simpl; [reflexivity|].
  intros [Hc Hs]%andb_prop.
  now rewrite (lower_char_fixes_spaces c Hc), IH.
Qed.

Lemma lstrip_blank_app (l s : string) :
  blank l = true -> lstrip (l ++ s) = lstrip s.
Proof.
  induction l as [|c l IH]; simpl; [reflexivity|].
  intros [Hc Hl]%andb_prop. rewrite Hc. now apply IH.
Qed.

Lemma lstrip_blank (l : string) : blank l = true -> lstrip l = EmptyString.
Proof.
  induction l as [|c l IH]; simpl; [reflexivity|].
  intros [Hc Hl]%andb_prop. rewrite Hc. now apply IH.
Qed.

Lemma rstrip_blank (r : string) : blank r = true -> rstrip r = EmptyString.
Proof.
  induction r as [|c r IH]; simpl; [reflexivity|].
  intros [Hc Hr]%andb_prop. now rewrite (IH Hr), Hc.
Qed.

Lemma rstrip_app_blank (s r : string) :
  blank r = true -> rstrip (s ++ r) = rstrip s.
Proof.
  intros Hr. induction s as [|c s IH]; simpl.
  - now apply rstrip_blank.
  - now rewrite IH.
Qed.

Lemma strip_app_blank (s r : string) :
  blank r = true -> strip (s ++ r) = strip s.
Proof.
  intros Hr. unfold strip. induction s as [|c s IH]; simpl.
  - now rewrite (lstrip_blank r Hr).
  - destruct (isspace c); [exact IH|].
    change (String c (s ++ r)) with (String c s ++ r)%string.
    now apply rstrip_app_blank.
Qed.

Lemma strip_padding (l s r : string) :
  blank l = true -> blank r = true -> strip (l ++ s ++ r) = strip s.
Proof.
  intros Hl Hr. unfold strip. rewrite (lstrip_blank_app l _ Hl).
  now apply strip_app_blank.
Qed.

Lemma normalized_text_invariant (t t' : string) :
  case_variant t t' \/ padding_variant t t' ->
  strip (lower t') = strip (lower t).
Proof.
  intros [Hc | (l & r & Hl & Hr & ->)].
  - now rewrite (case_variant_lower _ _ Hc).
  - rewrite !lower_app, (blank_lower l Hl), (blank_lower r Hr).
    now apply strip_padding.
Qed.

(** ** The embedding: shape *)

Section EmbeddingShape.

Context {F : Type} `{Float F}.

Lemma pad_loop_length (n : nat) (features : list (num F)) :
  length (PineconeStorageTool.pad_loop n features) = (length features + n)%nat.
Proof.
  revert features. induction n as [|n IH]; intros features; simpl.
  - lia.
  - rewrite IH, length_app. simpl. lia.
Qed.

Lemma feature_list_length (text : string) (dimension : Z) :
  0 <= dimension ->
  Z.of_nat (length (PineconeStorageTool.feature_list text dimension)) = dimension.
Proof.
  intros Hd. unfold PineconeStorageTool.feature_list, PineconeStorageTool.slice_to,
    PineconeStorageTool.pad.
  destruct (dimension <? 0) eqn:E; [lia|].
  rewrite length_firstn, pad_loop_length, !length_app, !length_map.
  simpl length. lia.
Qed.

Lemma normalize_length (features : list (num F)) :
  length (PineconeStorageTool.normalize features) = length features.
Proof.
  unfold PineconeStorageTool.normalize.
  destruct (fpos _); [apply length_map | reflexivity].
Qed.

Lemma fallback_length (dimension : Z) :
  0 <= dimension ->
  Z.of_nat (length (PineconeStorageTool.fallback (F:=F) dimension)) = dimension.
Proof.
  intros Hd. unfold PineconeStorageTool.fallback. rewrite repeat_length. lia.
Qed.

(** On a [str] the body of the [try] returns, and what it returns is the
    normalized feature list of the lowercased, stripped text. *)
Lemma embedding_of_str (s : string) (dimension : Z) :
  PineconeStorageTool._create_simple_embedding (F:=F) (VStr s) dimension
  = Ret (PineconeStorageTool.normalize
           (PineconeStorageTool.feature_list (strip (lower s)) dimension)).
Proof. reflexivity. Qed.

(** On anything else [text.lower()] raises and the fallback is returned. *)
Lemma embedding_of_non_str (text : value F) (dimension : Z) :
  (forall s, text <> VStr s) ->
  PineconeStorageTool._create_simple_embedding text dimension
  = Ret (PineconeStorageTool.fallback dimension).
Proof.
  intros Hs. destruct text; try reflexivity. now destruct (Hs s).
Qed.

(** C2.  For every argument [text] (a string, the empty string included,
    or a value on which the body fails) and every dimension [d >= 0], the
    embedding function returns a vector of exactly [d] entries: the
    feature list is padded or truncated to length [d], and the fallback
    vector has length [d] as well. *)
Theorem embedding_has_requested_length (text : value F) (dimension : Z) :
  0 <= dimension ->
  (exists v, PineconeStorageTool._create_simple_embedding text dimension = Ret v
             /\ Z.of_nat (length v) = dimension)
  /\ (forall s : string,
        Z.of_nat (length (PineconeStorageTool.feature_list (F:=F) s dimension)) = dimension)
  /\ Z.of_nat (length (PineconeStorageTool.fallback (F:=F) dimension)) = dimension.
Proof.
  intros Hd. split; [|split].
  - destruct text as [| b | n | s | l | d];
      try (eexists; split; [reflexivity | now apply fallback_length]).
    eexists; split; [apply embedding_of_str|].
    rewrite normalize_length. now apply feature_list_length.
  - intros s. now apply feature_list_length.
  - now apply fallback_length.
Qed.

(** The sixth scalar feature is computed on the lowercased text, where no
    uppercase letter is left. *)
Lemma uppercase_feature_zero (s : string) :
  nth 5 (PineconeStorageTool.scalar_features (strip (lower s))) 1 = 0.
Proof. simpl. apply no_upper_after_normalization. Qed.

Lemma feature_list_sixth (text : string) (dimension : Z) :
  6 <= dimension ->
  nth_error (PineconeStorageTool.feature_list (F:=F) text dimension) 5
  = Some (Int (count_if isupper text)).
Proof.
  intros Hd. unfold PineconeStorageTool.feature_list, PineconeStorageTool.slice_to,
    PineconeStorageTool.pad.
  destruct (dimension <? 0) eqn:E; [lia|].
  rewrite nth_error_firstn.
  destruct (Nat.ltb_spec 5 (Z.to_nat dimension)) as [_|Hle]; [|lia].
  set (base := _ ++ _).
  assert (Hbase : nth_error base 5 = Some (Int (count_if isupper text))).
  { unfold base. now rewrite <- app_assoc. }
  generalize (Z.to_nat (dimension - Z.of_nat (length base))) as n.
  clearbody base. intros n. revert base Hbase.
  induction n as [|n IH]; intros base Hbase; simpl; [exact Hbase|].
  apply IH. rewrite nth_error_app1; [exact Hbase|].
  apply nth_error_Some. now rewrite Hbase.
Qed.

(** C10.  The embedding depends only on the lowercased, stripped text: a
    text that differs only in letter case, or only in leading and trailing
    whitespace, has the same embedding. *)
Theorem embedding_ignores_case_and_padding (t t' : string) (dimension : Z) :
  case_variant t t' \/ padding_variant t t' ->
  PineconeStorageTool._create_simple_embedding (F:=F) (VStr t') dimension
  = PineconeStorageTool._create_simple_embedding (VStr t) dimension.
Proof.
  intros Hv. rewrite !embedding_of_str.
  now rewrite (normalized_text_invariant t t' Hv).
Qed.

End EmbeddingShape.

Lemma embedding_has_requested_length_witness :
  0 <= 384
  /\ exists v, PineconeStorageTool._create_simple_embedding (F:=float) (VStr "") 384 = Ret v
               /\ Z.of_nat (length v) = 384.
Proof.
  split; [lia|].
  apply (proj1 (embedding_has_requested_length (F:=float) (VStr "") 384 ltac:(lia))).
Defined.

Lemma embedding_ignores_case_and_padding_witness :
  (case_variant "Hi" "hI" \/ padding_variant "Hi" "hI")
  /\ PineconeStorageTool._create_simple_embedding (F:=float) (VStr "hI") 384
     = PineconeStorageTool._create_simple_embedding (VStr "Hi") 384.
Proof.
  assert (Hv : case_variant "Hi" "hI" \/ padding_variant "Hi" "hI").
  { left. constructor; [right; left; split; reflexivity|].
    constructor; [right; right; split; reflexivity|]. constructor. }
  split; [exact Hv|].
  exact (embedding_ignores_case_and_padding (F:=float) "Hi" "hI" 384 Hv).
Defined.

(** C9.  The feature labelled "uppercase letters" is computed after
    [text.lower()]: it is 0 for every text, here for a text with two
    uppercase letters. *)
Theorem uppercase_feature_counts_nothing :
  count_if isupper "Hello World" = 2
  /\ nth_error
       (PineconeStorageTool.feature_list (F:=float) (strip (lower "Hello World")) 384) 5
     = Some (Int 0)
  /\ forall s : string,
       nth 5 (PineconeStorageTool.scalar_features (strip (lower s))) 1 = 0.
Proof.
  split; [reflexivity|]. split; [vm_compute; reflexivity|].
  exact uppercase_feature_zero.
Qed.

(** The embedding in binary64 on three small inputs: an empty text gives
    the untouched zero features, a non-string gives the fallback, and a
    negative dimension cuts one entry off the 43 features. *)
Example embedding_of_empty_text :
  PineconeStorageTool._create_simple_embedding (F:=float) (VStr "  ") 3
  = Ret [Int 0; Int 0; Int 0].
Proof. vm_compute. reflexivity. Qed.

Example embedding_of_none :
  PineconeStorageTool._create_simple_embedding (F:=float) VNone 2
  = Ret [Flt tenth; Flt tenth].
Proof. vm_compute. reflexivity. Qed.

Example embedding_negative_dimension :
  option_map (@length (num float))
    (match PineconeStorageTool._create_simple_embedding (F:=float) (VStr "ab") (-1) with
     | Ret v => Some v
     | Raise _ => None
     end)
  = Some 42%nat.
Proof. vm_compute. reflexivity. Qed.

(** Binary64 rounds: recomputed with the program's own operations, the sum
    of the squares of the embedding of "ab" is 1 - 2^-52, and that of
    "hello" in dimension 43 is not 1 either. *)
Example binary64_norm_is_rounded :
  let squared_norm s d :=
    match PineconeStorageTool._create_simple_embedding (F:=float) (VStr s) d with
    | Ret v => Prim2SF (PineconeStorageTool.to_float (PineconeStorageTool.sum_squares v))
    | Raise _ => S754_nan
    end in
  Prim2SF PrimFloat.one = S754_finite false 4503599627370496 (-52)
  /\ squared_norm "ab" 384 = S754_finite false 9007199254740990 (-53)
  /\ squared_norm "hello" 43 <> S754_finite false 4503599627370496 (-52).
Proof.
  intros squared_norm. split; [reflexivity|]. split; [vm_compute; reflexivity|].
  vm_compute. discriminate.
Qed.

(** ** The monad of the clients *)

Section Monad.

Context {F : Type}.

Lemma quiet_ret {A : Type} (a : A) : quiet (F:=F) (ret a).
Proof. now intros log. Qed.

Lemma quiet_lift {A : Type} (r : res A) : quiet (F:=F) (lift r).
Proof. now intros log. Qed.

Lemma quiet_bind {A B : Type} (m : M F A) (k : A -> M F B) :
  quiet m -> (forall a, quiet (k a)) -> quiet (bind m k).
Proof.
  intros Hm Hk log. unfold bind. specialize (Hm log).
  destruct (m log) as [[a|e] log']; simpl in *; subst; [apply Hk | reflexivity].
Qed.

Lemma quiet_try_except {A : Type} (body : M F A)
    (handlers : list ((exn -> bool) * (exn -> M F A))) :
  quiet body -> Forall (fun h => forall e, quiet (snd h e)) handlers ->
  quiet (try_except body handlers).
Proof.
  intros Hb Hh log. unfold try_except. specialize (Hb log).
  destruct (body log) as [[a|e] log']; simpl in *; subst; [reflexivity|].
  destruct (find (fun h => fst h e) handlers) as [h|] eqn:E; [|reflexivity].
  apply find_some in E. destruct E as [Hin _].
  rewrite Forall_forall in Hh. now apply Hh.
Qed.

Lemma guarded_ret {A : Type} (a : A) : guarded (F:=F) (ret a).
Proof. intros log e log' E. discriminate E. Qed.

Lemma guarded_lift {A : Type} (r : res A) : guarded_res r -> guarded (F:=F) (lift r).
Proof. intros Hr log e log' E. unfold lift in E. inversion E; subst. exact Hr. Qed.

Lemma guarded_bind {A B : Type} (m : M F A) (k : A -> M F B) :
  guarded m -> (forall a, guarded (k a)) -> guarded (bind m k).
Proof.
  intros Hm Hk log e log' E. unfold bind in E.
  destruct (m log) as [[a|e0] log0] eqn:Em.
  - now apply (Hk a log0 e log').
  - inversion E; subst. now apply (Hm log e log').
Qed.

Lemma guarded_try_except {A : Type} (body : M F A)
    (handlers : list ((exn -> bool) * (exn -> M F A))) :
  guarded body -> Forall (fun h => forall e, guarded (snd h e)) handlers ->
  guarded (try_except body handlers).
Proof.
  intros Hb Hh log e log' E. unfold try_except in E.
  destruct (body log) as [[a|e0] log0] eqn:Eb; [discriminate E|].
  destruct (find (fun h => fst h e0) handlers) as [h|] eqn:Ef.
  - apply find_some in Ef. destruct Ef as [Hin _].
    rewrite Forall_forall in Hh. now apply (Hh h Hin e0 log0 e log').
  - inversion E; subst. now apply (Hb log e log').
Qed.

Lemma guarded_post (net : request F -> res (response F)) (req : request F) :
  raises_exceptions_only net -> guarded (post net req).
Proof.
  intros Hnet log e log' E. unfold post in E. inversion E; subst.
  now apply (Hnet req).
Qed.

Lemma guarded_json (r : response F) : guarded_res (json r).
Proof. unfold json. now destruct (body_json r). Qed.

Lemma guarded_get (v : value F) (key : string) (default : value F) :
  guarded_res (get v key default).
Proof. now destruct v. Qed.

(** A [try] whose last handler is [except Exception] and whose handlers
    all return: a guarded body then always yields a value. *)
Lemma try_except_returns {A : Type} (body : M F A)
    (handlers : list ((exn -> bool) * (exn -> M F A))) (log : list (request F)) :
  guarded body ->
  Forall (fun h => forall e, returns (snd h e)) handlers ->
  Exists (fun h => fst h = is_Exception) handlers ->
  exists a, fst (try_except body handlers log) = Ret a.
Proof.
  intros Hb Hret Hex. unfold try_except.
  destruct (body log) as [[a|e] log'] eqn:Eb; [now exists a|].
  pose proof (Hb log e log' Eb) as He.
  destruct (find _ _) as [h|] eqn:Ef.
  - apply find_some in Ef. destruct Ef as [Hin _].
    rewrite Forall_forall in Hret. destruct (Hret h Hin e) as [a Ha].
    exists a. now rewrite Ha.
  - exfalso. apply Exists_exists in Hex. destruct Hex as (h0 & Hin & Hfst).
    pose proof (find_none _ _ Ef h0 Hin) as Hf. simpl in Hf.
    rewrite Hfst, He in Hf. discriminate Hf.
Qed.

End Monad.

Ltac quiet_steps :=
  repeat first
    [ apply quiet_ret
    | apply quiet_lift
    | apply quiet_bind; [|intros ?]
    | apply quiet_try_except; [|repeat constructor; intros ?]
    | match goal with |- quiet (if ?b then _ else _) => destruct b end ].

Ltac guarded_steps :=
  repeat first
    [ apply guarded_ret
    | apply guarded_lift; first [apply guarded_json | apply guarded_get | exact I]
    | apply guarded_post; assumption
    | apply guarded_bind; [|intros ?]
    | apply guarded_try_except; [|repeat constructor; intros ?]
    | match goal with |- guarded (if ?b then _ else _) => destruct b end ].

(** ** The social publisher *)

Section Facebook.

Context {F : Type} `{Float F}.

Variable getenv : string -> option string.
Variable net : request F -> res (response F).
Variable repr : value F -> string.

Lemma strip_nonempty (s : string) : nonempty (strip s) = true -> nonempty s = true.
Proof. now destruct s. Qed.

Lemma facebook_on_response_quiet (fb_page_id : string) (r : response F) :
  quiet (FacebookPublishingTool.on_response repr fb_page_id r).
Proof.
  unfold FacebookPublishingTool.on_response, FacebookPublishingTool.or_if_not_json.
  quiet_steps.
Qed.

Lemma facebook_on_response_guarded (fb_page_id : string) (r : response F) :
  guarded (FacebookPublishingTool.on_response repr fb_page_id r).
Proof.
  unfold FacebookPublishingTool.on_response, FacebookPublishingTool.or_if_not_json.
  guarded_steps.
Qed.

(** When validation fails the body returns one of the three validation
    messages and leaves the log alone. *)
Lemma facebook_body_rejects (message page_access_token page_id : string) :
  facebook_validates getenv message page_access_token page_id = false ->
  exists s,
    In s [ FacebookPublishingTool.token_required;
           FacebookPublishingTool.page_id_required;
           FacebookPublishingTool.message_empty ]
    /\ forall log,
         FacebookPublishingTool.run_body getenv net repr message page_access_token page_id log
         = (Ret s, log).
Proof.
  unfold facebook_validates, facebook_access_token, facebook_page_id,
    FacebookPublishingTool.run_body.
  intros Hv.
  destruct (nonempty (FacebookPublishingTool.or_else page_access_token _)) eqn:Et; simpl.
  - destruct (nonempty (FacebookPublishingTool.or_else page_id _)) eqn:Ep; simpl.
    + simpl in Hv. rewrite Hv, orb_true_r.
      eexists; split; [right; right; left; reflexivity | reflexivity].
    + eexists; split; [right; left; reflexivity | reflexivity].
  - eexists; split; [left; reflexivity | reflexivity].
Qed.

(** When validation passes the body issues its request and dispatches on
    the response. *)
Lemma facebook_body_posts (message page_access_token page_id : string) :
  facebook_validates getenv message page_access_token page_id = true ->
  FacebookPublishingTool.run_body getenv net repr message page_access_token page_id
  = bind (post net (facebook_request getenv message page_access_token page_id))
         (FacebookPublishingTool.on_response repr (facebook_page_id getenv page_id)).
Proof.
  unfold facebook_validates, facebook_access_token, facebook_page_id,
    FacebookPublishingTool.run_body.
  intros [[Et Ep]%andb_prop Hm]%andb_prop.
  rewrite Et, Ep, Hm, (strip_nonempty _ Hm). reflexivity.
Qed.

End Facebook.

(** ** The CMS publisher *)

Section Squarespace.

Context {F : Type} `{Float F}.

Variable getenv : string -> option string.
Variable net : request F -> res (response F).
Variable repr : value F -> string.

Lemma squarespace_on_response_quiet (title : string) (r : response F) :
  quiet (SquarespacePublishingTool.on_response repr title r).
Proof.
  unfold SquarespacePublishingTool.on_response, SquarespacePublishingTool.or_if_not_json.
  quiet_steps.
Qed.

Lemma squarespace_on_response_guarded (title : string) (r : response F) :
  guarded (SquarespacePublishingTool.on_response repr title r).
Proof.
  unfold SquarespacePublishingTool.on_response, SquarespacePublishingTool.or_if_not_json.
  guarded_steps.
Qed.

Lemma squarespace_body_rejects (title body : string) (excerpt : option string)
    (tags : option (list string)) :
  squarespace_validates getenv = false ->
  exists s,
    In s [ SquarespacePublishingTool.api_key_required;
           SquarespacePublishingTool.site_id_required ]
    /\ forall log,
         SquarespacePublishingTool.run_body getenv net repr title body excerpt tags log
         = (Ret s, log).
Proof.
  unfold squarespace_validates, present, SquarespacePublishingTool.run_body.
  intros Hv.
  destruct (getenv "SQUARESPACE_API_KEY") as [k|];
    [destruct (nonempty k) eqn:Ek|]; simpl;
    try (eexists; split; [left; reflexivity | reflexivity]).
  destruct (getenv "SQUARESPACE_SITE_ID") as [i|];
    [destruct (nonempty i) eqn:Ei|]; simpl;
    try (eexists; split; [right; left; reflexivity | reflexivity]).
  discriminate Hv.
Qed.

Lemma squarespace_body_posts (title body : string) (excerpt : option string)
    (tags : option (list string)) :
  squarespace_validates getenv = true ->
  SquarespacePublishingTool.run_body getenv net repr title body excerpt tags
  = bind (post net (squarespace_request getenv title body excerpt tags))
         (SquarespacePublishingTool.on_response repr title).
Proof.
  unfold squarespace_validates, present, squarespace_request, setting,
    SquarespacePublishingTool.run_body.
  intros [Hk Hi]%andb_prop.
  destruct (getenv "SQUARESPACE_API_KEY") as [k|]; [|discriminate Hk].
  destruct (getenv "SQUARESPACE_SITE_ID") as [i|]; [|discriminate Hi].
  rewrite Hk, Hi. reflexivity.
Qed.

End Squarespace.

(** ** The vector-store client *)

Section Pinecone.

Context {F : Type} `{Float F}.

Variable getenv : string -> option string.
Variable net : request F -> res (response F).
Variable repr : value F -> string.

Lemma pinecone_body_guarded (content_id content_text : string)
    (performance_metrics : value F) (content_type : string)
    (story_characteristics : value F) :
  raises_exceptions_only net ->
  guarded (PineconeStorageTool.run_body getenv net repr content_id content_text
             performance_metrics content_type story_characteristics).
Proof.
  intros Hnet. unfold PineconeStorageTool.run_body.
  destruct (getenv "PINECONE_API_KEY"); [|apply guarded_ret].
  destruct (getenv "PINECONE_ENVIRONMENT"); [|apply guarded_ret].
  destruct (getenv "PINECONE_INDEX_NAME"); [|apply guarded_ret].
  guarded_steps.
Qed.

(** A content type outside the enumeration stops the body at one of the
    two validation messages, before any request. *)
Lemma pinecone_body_rejects (content_id content_text : string)
    (performance_metrics : value F) (content_type : string)
    (story_characteristics : value F) :
  PineconeStorageTool.allowed_content_type content_type = false ->
  let s := if pinecone_configured getenv
           then PineconeStorageTool.bad_content_type
           else PineconeStorageTool.missing_environment in
  forall log,
    PineconeStorageTool.run_body getenv net repr content_id content_text
      performance_metrics content_type story_characteristics log
    = (Ret s, log).
Proof.
  intros Hc s log. unfold s, pinecone_configured, present, PineconeStorageTool.run_body.
  destruct (getenv "PINECONE_API_KEY") as [k|]; [|reflexivity].
  destruct (getenv "PINECONE_ENVIRONMENT") as [e|]; [|now rewrite andb_false_r].
  destruct (getenv "PINECONE_INDEX_NAME") as [i|]; [|now rewrite andb_false_r].
  cbn [forallb].
  destruct (nonempty k), (nonempty e), (nonempty i); simpl; try reflexivity.
  now rewrite Hc.
Qed.

End Pinecone.

(** ** The three clients together *)

Section Clients.

Context {F : Type} `{Float F}.

Variable getenv : string -> option string.
Variable net : request F -> res (response F).
Variable repr : value F -> string.

Lemma try_except_ret {A : Type} (body : M F A)
    (handlers : list ((exn -> bool) * (exn -> M F A)))
    (a : A) (log log' : list (request F)) :
  body log = (Ret a, log') -> try_except body handlers log = (Ret a, log').
Proof. intros E. unfold try_except. now rewrite E. Qed.

Lemma try_except_log {A : Type} (body : M F A)
    (handlers : list ((exn -> bool) * (exn -> M F A))) (log : list (request F)) :
  Forall (fun h => forall e, quiet (snd h e)) handlers ->
  snd (try_except body handlers log) = snd (body log).
Proof.
  intros Hh. unfold try_except.
  destruct (body log) as [[a|e] log']; [reflexivity|].
  destruct (find _ _) as [h|] eqn:Ef; [|reflexivity].
  apply find_some in Ef. destruct Ef as [Hin _].
  rewrite Forall_forall in Hh. apply (Hh h Hin e log').
Qed.

Lemma post_then_log {A : Type} (req : request F) (k : response F -> M F A)
    (log : list (request F)) :
  (forall r, quiet (k r)) -> snd (bind (post net req) k log) = log ++ [req].
Proof.
  intros Hk. unfold bind, post. destruct (net req) as [r|e]; [apply Hk | reflexivity].
Qed.

(** C3.  When the access token (parameter and environment fallback) is
    empty, or the page id is, or the message is empty after trimming, the
    social publisher returns one of its validation messages: it raises
    nothing and the log of HTTP requests is unchanged. *)
Theorem facebook_rejects_missing_input
    (message page_access_token page_id : string) (log : list (request F)) :
  (page_access_token = "" /\ present (getenv "FACEBOOK_PAGE_ACCESS_TKN") = false)
  \/ (page_id = "" /\ present (getenv "FACEBOOK_PAGE_ID") = false)
  \/ strip message = "" ->
  exists s,
    FacebookPublishingTool._run getenv net repr message page_access_token page_id log
    = (Ret s, log)
    /\ In s [ FacebookPublishingTool.token_required;
              FacebookPublishingTool.page_id_required;
              FacebookPublishingTool.message_empty ].
Proof.
  intros Hbad.
  assert (Hv : facebook_validates getenv message page_access_token page_id = false).
  { unfold facebook_validates, facebook_access_token, facebook_page_id,
      FacebookPublishingTool.or_else, FacebookPublishingTool.getenv_or_empty, present in *.
    destruct Hbad as [[-> Ht] | [[-> Hp] | Hm]].
    - simpl. destruct (getenv "FACEBOOK_PAGE_ACCESS_TKN"); now rewrite ?Ht.
    - simpl. rewrite andb_comm, andb_assoc.
      destruct (getenv "FACEBOOK_PAGE_ID"); rewrite ?Hp; now rewrite andb_false_r.
    - rewrite Hm. now rewrite andb_false_r. }
  destruct (facebook_body_rejects getenv net repr _ _ _ Hv) as (s & Hin & Hrun).
  exists s. split; [|exact Hin].
  unfold FacebookPublishingTool._run. apply try_except_ret. apply Hrun.
Qed.

(** C5.  With a content type outside [facebook_post], [blog_post] the
    vector-store client returns a validation message (the one about the
    content type when its settings are present, the one about the settings
    otherwise) and the log of HTTP requests is unchanged. *)
Theorem pinecone_rejects_unknown_content_type
    (content_id content_text : string) (performance_metrics : value F)
    (content_type : string) (story_characteristics : value F)
    (log : list (request F)) :
  content_type <> "facebook_post" -> content_type <> "blog_post" ->
  exists s,
    PineconeStorageTool._run getenv net repr content_id content_text
      performance_metrics content_type story_characteristics log
    = (Ret s, log)
    /\ In s [ PineconeStorageTool.missing_environment;
              PineconeStorageTool.bad_content_type ]
    /\ (pinecone_configured getenv = true -> s = PineconeStorageTool.bad_content_type).
Proof.
  intros Hf Hb.
  assert (Hc : PineconeStorageTool.allowed_content_type content_type = false).
  { unfold PineconeStorageTool.allowed_content_type. simpl.
    apply String.eqb_neq in Hf, Hb. now rewrite Hf, Hb. }
  pose proof (pinecone_body_rejects getenv net repr content_id content_text
                performance_metrics content_type story_characteristics Hc) as Hrun.
  simpl in Hrun.
  eexists. split; [|split].
  - unfold PineconeStorageTool._run. apply try_except_ret. apply Hrun.
  - destruct (pinecone_configured getenv); simpl; auto.
  - now intros ->.
Qed.

(** C8.  An invocation of either publisher issues exactly one request when
    validation passes and none when it fails, whatever the network answers
    or raises: the log grows by that one request or not at all. *)
Theorem publishers_post_at_most_once :
  (forall (message page_access_token page_id : string) (log : list (request F)),
      snd (FacebookPublishingTool._run getenv net repr message page_access_token page_id log)
      = if facebook_validates getenv message page_access_token page_id
        then log ++ [facebook_request getenv message page_access_token page_id]
        else log)
  /\ (forall (title body : string) (excerpt : option string)
             (tags : option (list string)) (log : list (request F)),
        snd (SquarespacePublishingTool._run getenv net repr title body excerpt tags log)
        = if squarespace_validates getenv
          then log ++ [squarespace_request getenv title body excerpt tags]
          else log).
Proof.
  split.
  - intros message page_access_token page_id log.
    unfold FacebookPublishingTool._run.
    rewrite try_except_log by (repeat constructor; intros ?; apply quiet_ret).
    destruct (facebook_validates getenv message page_access_token page_id) eqn:Hv.
    + rewrite (facebook_body_posts getenv net repr _ _ _ Hv).
      apply post_then_log. intros r. apply facebook_on_response_quiet.
    + destruct (facebook_body_rejects getenv net repr _ _ _ Hv) as (s & _ & Hrun).
      now rewrite Hrun.
  - intros title body excerpt tags log.
    unfold SquarespacePublishingTool._run.
    rewrite try_except_log by (repeat constructor; intros ?; apply quiet_ret).
    destruct (squarespace_validates getenv) eqn:Hv.
    + rewrite (squarespace_body_posts getenv net repr _ _ _ _ Hv).
      apply post_then_log. intros r. apply squarespace_on_response_quiet.
    + destruct (squarespace_body_rejects getenv net repr title body excerpt tags Hv)
        as (s & _ & Hrun).
      now rewrite Hrun.
Qed.

Lemma facebook_body_guarded (message page_access_token page_id : string) :
  raises_exceptions_only net ->
  guarded (FacebookPublishingTool.run_body getenv net repr message page_access_token page_id).
Proof.
  intros Hnet.
  destruct (facebook_validates getenv message page_access_token page_id) eqn:Hv.
  - rewrite (facebook_body_posts getenv net repr _ _ _ Hv).
    apply guarded_bind; [now apply guarded_post|].
    intros r. apply facebook_on_response_guarded.
  - destruct (facebook_body_rejects getenv net repr _ _ _ Hv) as (s & _ & Hrun).
    intros log e log' E. rewrite Hrun in E. discriminate E.
Qed.

Lemma squarespace_body_guarded (title body : string) (excerpt : option string)
    (tags : option (list string)) :
  raises_exceptions_only net ->
  guarded (SquarespacePublishingTool.run_body getenv net repr title body excerpt tags).
Proof.
  intros Hnet.
  destruct (squarespace_validates getenv) eqn:Hv.
  - rewrite (squarespace_body_posts getenv net repr _ _ _ _ Hv).
    apply guarded_bind; [now apply guarded_post|].
    intros r. apply squarespace_on_response_guarded.
  - destruct (squarespace_body_rejects getenv net repr title body excerpt tags Hv)
      as (s & _ & Hrun).
    intros log e log' E. rewrite Hrun in E. discriminate E.
Qed.

Ltac handlers_return :=
  repeat constructor; intros ?; eexists; intros ?; reflexivity.

Ltac last_handler_catches :=
  repeat first [ apply Exists_cons_hd; reflexivity | apply Exists_cons_tl ].

(** C6.  Whatever its input and whatever the network answers, and whichever
    exception arises inside (a timeout, a connection failure, another
    transport error, a body that is not JSON or not of the expected shape),
    each of the three clients returns a string and raises nothing. *)
Theorem clients_never_raise :
  raises_exceptions_only net ->
  (forall (message page_access_token page_id : string) (log : list (request F)),
      exists s,
        fst (FacebookPublishingTool._run getenv net repr message page_access_token page_id log)
        = Ret s)
  /\ (forall (title body : string) (excerpt : option string)
             (tags : option (list string)) (log : list (request F)),
        exists s,
          fst (SquarespacePublishingTool._run getenv net repr title body excerpt tags log)
          = Ret s)
  /\ (forall (content_id content_text : string) (performance_metrics : value F)
             (content_type : string) (story_characteristics : value F)
             (log : list (request F)),
        exists s,
          fst (PineconeStorageTool._run getenv net repr content_id content_text
                 performance_metrics content_type story_characteristics log)
          = Ret s).
Proof.
  intros Hnet. split; [|split].
  - intros. apply try_except_returns;
      [now apply facebook_body_guarded | handlers_return | last_handler_catches].
  - intros. apply try_except_returns;
      [now apply squarespace_body_guarded | handlers_return | last_handler_catches].
  - intros. apply try_except_returns;
      [now apply pinecone_body_guarded | handlers_return | last_handler_catches].
Qed.

End Clients.

(** ** Instances of the statements above *)

Lemma facebook_rejects_missing_input_witness :
  (("" = "" /\ present (no_settings "FACEBOOK_PAGE_ACCESS_TKN") = false)
   \/ ("" = "" /\ present (no_settings "FACEBOOK_PAGE_ID") = false)
   \/ strip "Hello" = "")
  /\ exists s,
       FacebookPublishingTool._run no_settings times_out no_repr "Hello" "" "" [] = (Ret s, [])
       /\ In s [ FacebookPublishingTool.token_required;
                 FacebookPublishingTool.page_id_required;
                 FacebookPublishingTool.message_empty ].
Proof.
  assert (Hbad : ("" = "" /\ present (no_settings "FACEBOOK_PAGE_ACCESS_TKN") = false)
                 \/ ("" = "" /\ present (no_settings "FACEBOOK_PAGE_ID") = false)
                 \/ strip "Hello" = "").
  { left. split; reflexivity. }
  split; [exact Hbad|].
  exact (facebook_rejects_missing_input no_settings times_out no_repr "Hello" "" "" [] Hbad).
Defined.

Lemma pinecone_rejects_unknown_content_type_witness :
  "tweet" <> "facebook_post" /\ "tweet" <> "blog_post"
  /\ exists s,
       PineconeStorageTool._run all_settings times_out no_repr "S1" "A volunteer story"
         (VDict [("likes", VNum (Int 12))]) "tweet" (VDict []) []
       = (Ret s, [])
       /\ In s [ PineconeStorageTool.missing_environment;
                 PineconeStorageTool.bad_content_type ]
       /\ (pinecone_configured all_settings = true -> s = PineconeStorageTool.bad_content_type).
Proof.
  assert (Hf : "tweet" <> "facebook_post") by discriminate.
  assert (Hb : "tweet" <> "blog_post") by discriminate.
  split; [exact Hf|]. split; [exact Hb|].
  exact (pinecone_rejects_unknown_content_type all_settings times_out no_repr "S1"
           "A volunteer story" (VDict [("likes", VNum (Int 12))]) "tweet" (VDict []) [] Hf Hb).
Defined.

Lemma clients_never_raise_witness :
  raises_exceptions_only times_out
  /\ forall (message page_access_token page_id : string) (log : list (request float)),
       exists s,
         fst (FacebookPublishingTool._run all_settings times_out no_repr
                message page_access_token page_id log)
         = Ret s.
Proof.
  assert (Hnet : raises_exceptions_only times_out).
  { intros req e E. inversion E. reflexivity. }
  split; [exact Hnet|].
  exact (proj1 (clients_never_raise all_settings times_out no_repr Hnet)).
Defined.

(** C4.  A 400 whose JSON body carries its error as a string makes the
    second [get] raise; the social publisher then answers with the
    catch-all message, the very message a 500 with that body gets, and not
    with a bad-request message of the 400 branch. *)
Theorem bad_request_with_string_error :
  let run status :=
    fst (FacebookPublishingTool._run all_settings (answers (string_error status))
           no_repr "Hello" "" "" []) in
  run 400 = Ret (fmt [CROSS; " Unexpected Error: 'str' object has no attribute 'get'"])
  /\ run 500 = run 400
  /\ ~ (exists msg, run 400 = Ret (fmt [CROSS; " Facebook API Error (400): "; msg])).
Proof.
  intros run. split; [reflexivity|]. split; [reflexivity|].
  intros [msg E]. vm_compute in E. discriminate E.
Qed.

(** A signal that is not an [Exception] passes through the handlers. *)
Remark keyboard_interrupt_propagates :
  fst (FacebookPublishingTool._run all_settings
         (fun _ : request float => Raise (mk_exn KeyboardInterrupt ""))
         no_repr "Hello" "" "" [])
  = Raise (mk_exn KeyboardInterrupt "").
Proof. reflexivity. Qed.

(** ** The crew *)

Ltac run_cases execute :=
  repeat (cbn [Crew.run_sequential app];
          match goal with
          | |- context [execute ?t ?c] => destruct (execute t c)
          end).

Ltac in_run := cbn [In]; repeat first [left; reflexivity | right].

Ltac not_in_run H :=
  cbn [invoked map fst In] in H;
  repeat (destruct H as [H|H]; [discriminate H|]); destruct H.



(* ================================================================= *)
(** * Further properties *)

(** ** The character-frequency dictionary *)

Lemma dict_get_set_same (d : char_dict) (k : ascii) (v default : Z) :
  dict_get (dict_set d k v) k default = v.
Proof.
  induction d as [|[k' v'] d IH]; simpl.
  - now rewrite Ascii.eqb_refl.
  - destruct (Ascii.eqb k' k) eqn:E; simpl.
    + now rewrite Ascii.eqb_refl.
    + now rewrite E.
Qed.

Lemma dict_get_set_other (d : char_dict) (k k' : ascii) (v default : Z) :
  k <> k' -> dict_get (dict_set d k v) k' default = dict_get d k' default.
Proof.
  intros Hk. induction d as [|[k0 v0] d IH]; simpl.
  - apply Ascii.eqb_neq in Hk. now rewrite Hk.
  - destruct (Ascii.eqb k0 k) eqn:E; simpl.
    + apply Ascii.eqb_eq in E. subst k0.
      apply Ascii.eqb_neq in Hk. now rewrite Hk.
    + destruct (Ascii.eqb k0 k'); [reflexivity | exact IH].
Qed.

Lemma char_freq_loop_spec (text : string) (d : char_dict) (c : ascii) :
  dict_get (PineconeStorageTool.char_freq_loop text d) c 0
  = dict_get d c 0 + (if isalnum c || isspace c then count c text else 0).
Proof.
  revert d. induction text as [|x text IH]; intros d; simpl.
  - destruct (isalnum c || isspace c); lia.
  - rewrite IH. destruct (Ascii.eqb x c) eqn:E.
    + apply Ascii.eqb_eq in E. subst x.
      destruct (isalnum c || isspace c); [rewrite dict_get_set_same|]; lia.
    + apply Ascii.eqb_neq in E.
      destruct (isalnum x || isspace x); [rewrite (dict_get_set_other _ _ _ _ _ E)|];
        destruct (isalnum c || isspace c); lia.
Qed.

Lemma char_freq_lookup (text : string) (c : ascii) :
  dict_get (PineconeStorageTool.char_freq_loop text []) c 0
  = if isalnum c || isspace c then count c text else 0.
Proof. rewrite char_freq_loop_spec. reflexivity. Qed.

(** X1.  After the counting loop, looking a character up in [char_freq]
    with default 0 gives its number of occurrences in the text when the
    character is alphanumeric or whitespace, and 0 (the key is missing)
    otherwise. *)
Theorem char_freq_counts (text : string) (c : ascii) :
  dict_get (PineconeStorageTool.char_freq_loop text []) c 0
  = if isalnum c || isspace c then count c text else 0.
Proof. exact (char_freq_lookup text c). Qed.

(** ** The feature list *)

Section Features.

Context {F : Type} `{Float F}.

Lemma pad_loop_repeat (n : nat) (features : list (num F)) :
  PineconeStorageTool.pad_loop n features = features ++ repeat (Flt (of_int 0)) n.
Proof.
  revert features. induction n as [|n IH]; intros features; simpl.
  - now rewrite app_nil_r.
  - rewrite IH, <- app_assoc. reflexivity.
Qed.

Lemma counted_letters_and_digits :
  forallb (fun c => isalnum c || isspace c)
    (PineconeStorageTool.letters ++ PineconeStorageTool.digits) = true.
Proof. reflexivity. Qed.

Lemma total_chars_max (text : string) :
  (if 0 <? len text then len text else 1) = Z.max 1 (len text).
Proof. unfold len. destruct (Z.ltb_spec 0 (Z.of_nat (String.length text))); lia. Qed.

Lemma frequency_features (text : string) (chars : list ascii) :
  forallb (fun c => isalnum c || isspace c) chars = true ->
  map (fun char =>
         Flt (PineconeStorageTool.truediv
                (dict_get (PineconeStorageTool.char_freq_loop text []) char 0)
                (if 0 <? len text then len text else 1)))
      chars
  = map (frequency text) chars.
Proof.
  intros Hc. apply map_ext_in. intros c Hin.
  rewrite forallb_forall in Hc. unfold frequency.
  now rewrite char_freq_lookup, (Hc c Hin), total_chars_max.
Qed.

(** The features before padding and truncation. *)
Lemma feature_list_unfold (text : string) (dimension : Z) :
  PineconeStorageTool.feature_list (F:=F) text dimension
  = PineconeStorageTool.slice_to
      (PineconeStorageTool.pad
         (map Int (PineconeStorageTool.scalar_features text)
          ++ map (frequency text) (PineconeStorageTool.letters ++ PineconeStorageTool.digits))
         dimension)
      dimension.
Proof.
  unfold PineconeStorageTool.feature_list. cbv zeta.
  pose proof counted_letters_and_digits as Hc.
  rewrite forallb_app in Hc. apply andb_prop in Hc. destruct Hc as [Hl Hd].
  rewrite (frequency_features text _ Hl), (frequency_features text _ Hd).
  now rewrite <- app_assoc, map_app.
Qed.

Lemma feature_list_as_table (text : string) (dimension : Z) :
  0 <= dimension ->
  PineconeStorageTool.feature_list (F:=F) text dimension
  = firstn (Z.to_nat dimension) (feature_table text dimension).
Proof.
  intros Hd. rewrite feature_list_unfold.
  unfold PineconeStorageTool.slice_to, PineconeStorageTool.pad, feature_table.
  destruct (dimension <? 0) eqn:E; [lia|].
  rewrite pad_loop_repeat, <- app_assoc.
  rewrite length_app, !length_map. reflexivity.
Qed.

(** X2.  For a dimension [d >= 0] the feature list is the first [d] entries
    of: the seven scalar features, the frequencies of [a]..[z] and of
    [0]..[9] (occurrences over the length of the text, the length counted
    as 1 for the empty text), and [d - 43] zeros. *)
Theorem feature_list_closed_form (text : string) (dimension : Z) :
  0 <= dimension ->
  PineconeStorageTool.feature_list (F:=F) text dimension
  = firstn (Z.to_nat dimension) (feature_table text dimension).
Proof. exact (feature_list_as_table text dimension). Qed.

End Features.

(** ** What the features see of a text *)

(** The sum of a weight over the characters of a text. *)
Lemma count_if_app (p : ascii -> bool) (a b : string) :
  count_if p (a ++ b) = count_if p a + count_if p b.
Proof. induction a as [|c a IH]; simpl; [reflexivity | rewrite IH; lia]. Qed.

Lemma count_as_count_if (c : ascii) (s : string) :
  count c s = count_if (fun x => Ascii.eqb x c) s.
Proof. induction s as [|x s IH]; simpl; [reflexivity | now rewrite IH]. Qed.

Lemma count_if_of_list (p : ascii -> bool) (s : string) :
  count_if p s
  = fold_right (fun x acc => (if p x then 1 else 0) + acc) 0 (list_ascii_of_string s).
Proof. induction s as [|x s IH]; simpl; [reflexivity | now rewrite IH]. Qed.

Lemma weight_permutation (p : ascii -> bool) (l l' : list ascii) :
  Permutation l l' ->
  fold_right (fun x acc => (if p x then 1 else 0) + acc) 0 l
  = fold_right (fun x acc => (if p x then 1 else 0) + acc) 0 l'.
Proof.
  induction 1 as [|x l l' _ IH|x y l|l l' l'' _ IH1 _ IH2]; simpl;
    [reflexivity | now rewrite IH | lia | now rewrite IH1].
Qed.

Lemma count_if_permutation (p : ascii -> bool) (s s' : string) :
  Permutation (list_ascii_of_string s) (list_ascii_of_string s') ->
  count_if p s = count_if p s'.
Proof. intros Hp. rewrite !count_if_of_list. now apply weight_permutation. Qed.

Lemma count_permutation (c : ascii) (s s' : string) :
  Permutation (list_ascii_of_string s) (list_ascii_of_string s') ->
  count c s = count c s'.
Proof. intros Hp. rewrite !count_as_count_if. now apply count_if_permutation. Qed.

Lemma len_permutation (s s' : string) :
  Permutation (list_ascii_of_string s) (list_ascii_of_string s') -> len s = len s'.
Proof.
  intros Hp. apply Permutation_length in Hp. unfold len.
  assert (Hl : forall x, length (list_ascii_of_string x) = String.length x).
  { induction x as [|c x IH]; simpl; [reflexivity | now rewrite IH]. }
  rewrite !Hl in Hp. now rewrite Hp.
Qed.

Section Rearrangement.

Context {F : Type} `{Float F}.

Lemma feature_list_of_rearrangement (text text' : string) (dimension : Z) :
  Permutation (list_ascii_of_string text) (list_ascii_of_string text') ->
  word_count text = word_count text' ->
  PineconeStorageTool.feature_list (F:=F) text dimension
  = PineconeStorageTool.feature_list text' dimension.
Proof.
  intros Hp Hw. rewrite !feature_list_unfold.
  assert (Hs : PineconeStorageTool.scalar_features text
               = PineconeStorageTool.scalar_features text').
  { unfold PineconeStorageTool.scalar_features. unfold word_count in Hw.
    rewrite Hw, (len_permutation _ _ Hp), (count_if_permutation isupper _ _ Hp),
      !(count_permutation _ _ _ Hp). reflexivity. }
  assert (Hf : forall chars, map (frequency (F:=F) text) chars = map (frequency text') chars).
  { intros chars. apply map_ext. intros c. unfold frequency.
    now rewrite (count_permutation c _ _ Hp), (len_permutation _ _ Hp). }
  now rewrite Hs, Hf.
Qed.

(** X3.  The embedding does not see the order of the characters: two texts
    whose normalized forms are rearrangements of one another, with the same
    number of words, have the same embedding in every dimension. *)
Theorem embedding_ignores_character_order (t t' : string) (dimension : Z) :
  Permutation (list_ascii_of_string (strip (lower t)))
              (list_ascii_of_string (strip (lower t'))) ->
  word_count (strip (lower t)) = word_count (strip (lower t')) ->
  PineconeStorageTool._create_simple_embedding (F:=F) (VStr t) dimension
  = PineconeStorageTool._create_simple_embedding (VStr t') dimension.
Proof.
  intros Hp Hw. rewrite !embedding_of_str.
  now rewrite (feature_list_of_rearrangement _ _ dimension Hp Hw).
Qed.

End Rearrangement.

Lemma embedding_ignores_character_order_witness :
  Permutation (list_ascii_of_string (strip (lower "Dog bites man")))
              (list_ascii_of_string (strip (lower "Man bites dog")))
  /\ word_count (strip (lower "Dog bites man")) = word_count (strip (lower "Man bites dog"))
  /\ PineconeStorageTool._create_simple_embedding (F:=float) (VStr "Dog bites man") 384
     = PineconeStorageTool._create_simple_embedding (VStr "Man bites dog") 384.
Proof.
  assert (Hp : Permutation (list_ascii_of_string (strip (lower "Dog bites man")))
                           (list_ascii_of_string (strip (lower "Man bites dog")))).
  { change (Permutation
              (list_ascii_of_string "dog" ++ list_ascii_of_string " bites " ++ list_ascii_of_string "man")
              (list_ascii_of_string "man" ++ list_ascii_of_string " bites " ++ list_ascii_of_string "dog")).
    set (a := list_ascii_of_string "dog"). set (b := list_ascii_of_string " bites ").
    set (c := list_ascii_of_string "man").
    apply perm_trans with ((b ++ c) ++ a); [apply Permutation_app_comm|].
    rewrite (app_assoc c b a). apply Permutation_app_tail. apply Permutation_app_comm. }
  split; [exact Hp|]. split; [reflexivity|].
  exact (embedding_ignores_character_order (F:=float) "Dog bites man" "Man bites dog" 384
           Hp eq_refl).
Defined.

(** ** Bounds on the scalar features *)

Lemma count_if_le_len (p : ascii -> bool) (s : string) : count_if p s <= len s.
Proof.
  unfold len. induction s as [|c s IH]; simpl String.length; simpl count_if; [lia|].
  destruct (p c); lia.
Qed.

Lemma count_nonneg (c : ascii) (s : string) : 0 <= count c s.
Proof. rewrite count_as_count_if. apply count_if_nonneg. Qed.

Lemma count_le_len (c : ascii) (s : string) : count c s <= len s.
Proof. rewrite count_as_count_if. apply count_if_le_len. Qed.

Lemma split_length (s : string) : (length (split s) <= String.length s)%nat.
Proof.
  induction s as [|c s IH]; [simpl; lia|].
  cbn [split String.length].
  destruct (isspace c); [lia|].
  destruct s as [|c' r]; [simpl; lia|].
  destruct (isspace c') eqn:Ec'.
  - cbn [split] in IH. rewrite Ec' in IH. cbn [length String.length] in *.
    cbn [split]. rewrite Ec'. lia.
  - destruct (split (String c' r)); cbn [length] in *; lia.
Qed.

Lemma scalar_features_in_range (text : string) :
  Forall (fun z => 0 <= z <= len text) (PineconeStorageTool.scalar_features text).
Proof.
  unfold PineconeStorageTool.scalar_features.
  pose proof (split_length text) as Hw.
  pose proof (count_if_nonneg isupper text). pose proof (count_if_le_len isupper text).
  repeat constructor;
    try apply count_nonneg; try apply count_le_len; unfold len in *; lia.
Qed.

(** X4.  Each of the seven scalar features lies between 0 and the length of
    the text; in particular a text has at most as many words as
    characters. *)
Theorem scalar_features_bounded (text : string) :
  Forall (fun z => 0 <= z <= len text) (PineconeStorageTool.scalar_features text).
Proof. exact (scalar_features_in_range text). Qed.

(** ** Dimensions below zero *)

Section NegativeDimension.

Context {F : Type} `{Float F}.

(** X5.  With a negative dimension [d] nothing is padded and the slice
    [features[:d]] drops the last [-d] of the 43 features: on a string the
    result has [max 0 (43 + d)] entries, and the fallback for any other
    argument is empty. *)
Theorem embedding_length_negative_dimension (text : value F) (dimension : Z) :
  dimension < 0 ->
  exists v,
    PineconeStorageTool._create_simple_embedding text dimension = Ret v
    /\ Z.of_nat (length v)
       = match text with VStr _ => Z.max 0 (43 + dimension) | _ => 0 end.
Proof.
  intros Hd.
  assert (Hfb : Z.of_nat (length (PineconeStorageTool.fallback (F:=F) dimension)) = 0).
  { unfold PineconeStorageTool.fallback. rewrite repeat_length. lia. }
  destruct text as [| b | n | s | l | d];
    try (eexists; split; [reflexivity | exact Hfb]).
  eexists. split; [apply embedding_of_str|].
  rewrite normalize_length, feature_list_unfold.
  unfold PineconeStorageTool.slice_to, PineconeStorageTool.pad.
  destruct (Z.ltb_spec dimension 0) as [_|]; [|lia].
  rewrite length_firstn, pad_loop_length, length_app, !length_map.
  change (length (PineconeStorageTool.scalar_features (strip (lower s)))) with 7%nat.
  change (length (PineconeStorageTool.letters ++ PineconeStorageTool.digits)) with 36%nat.
  lia.
Qed.

End NegativeDimension.

Lemma embedding_length_negative_dimension_witness :
  -40 < 0
  /\ exists v,
       PineconeStorageTool._create_simple_embedding (F:=float) (VStr "Hello") (-40) = Ret v
       /\ Z.of_nat (length v) = Z.max 0 (43 + -40).
Proof.
  assert (Hd : -40 < 0) by lia.
  split; [exact Hd|].
  exact (embedding_length_negative_dimension (F:=float) (VStr "Hello") (-40) Hd).
Defined.

(** ** The counted characters *)

Lemma indicator_absent (x : ascii) (chars : list ascii) :
  ~ In x chars ->
  fold_right Z.add 0 (map (fun c => if Ascii.eqb x c then 1 else 0) chars) = 0.
Proof.
  induction chars as [|c chars IH]; intros Hx; simpl; [reflexivity|].
  destruct (Ascii.eqb_spec x c) as [->|_].
  - destruct Hx. now left.
  - rewrite IH; [reflexivity|]. intros Hin. apply Hx. now right.
Qed.

Lemma indicator_once (x : ascii) (chars : list ascii) :
  NoDup chars ->
  0 <= fold_right Z.add 0 (map (fun c => if Ascii.eqb x c then 1 else 0) chars) <= 1.
Proof.
  induction 1 as [|c chars Hc _ IH]; simpl; [lia|].
  destruct (Ascii.eqb_spec x c) as [->|_]; [|lia].
  rewrite (indicator_absent c chars Hc). lia.
Qed.

Lemma counts_split (x : ascii) (s : string) (chars : list ascii) :
  fold_right Z.add 0 (map (fun c => count c (String x s)) chars)
  = fold_right Z.add 0 (map (fun c => if Ascii.eqb x c then 1 else 0) chars)
    + fold_right Z.add 0 (map (fun c => count c s) chars).
Proof.
  induction chars as [|c chars IH]; cbn [map fold_right]; [reflexivity|].
  rewrite IH. cbn [count]. lia.
Qed.

Lemma counts_le_len (s : string) (chars : list ascii) :
  NoDup chars ->
  0 <= fold_right Z.add 0 (map (fun c => count c s) chars) <= len s.
Proof.
  intros Hn. unfold len. induction s as [|x s IH].
  - simpl. induction chars as [|c chars IHc]; simpl; [lia|].
    apply NoDup_cons_iff in Hn. destruct Hn as [_ Hn]. specialize (IHc Hn). lia.
  - rewrite counts_split. pose proof (indicator_once x chars Hn).
    simpl String.length. lia.
Qed.

Lemma letters_and_digits_distinct :
  NoDup (PineconeStorageTool.letters ++ PineconeStorageTool.digits).
Proof.
  vm_compute.
  repeat (constructor;
          [intros Hin; repeat (destruct Hin as [Hin|Hin]; [discriminate Hin|]); exact Hin|]).
  constructor.
Qed.

(** X8.  The counts that the frequency features divide by the length of the
    text, those of [a]..[z] and [0]..[9] in [char_freq], add up to at most
    that length (and to at least 0). *)
Theorem counted_characters_at_most_length (text : string) :
  0 <= fold_right Z.add 0
         (map (fun c => dict_get (PineconeStorageTool.char_freq_loop text []) c 0)
            (PineconeStorageTool.letters ++ PineconeStorageTool.digits))
    <= len text.
Proof.
  rewrite (map_ext_in _ (fun c => count c text)).
  - apply counts_le_len, letters_and_digits_distinct.
  - intros c Hin. rewrite char_freq_lookup.
    pose proof counted_letters_and_digits as Hc. rewrite forallb_forall in Hc.
    now rewrite (Hc c Hin).
Qed.

(** ** Blank texts in binary64 *)

Lemma Forall_firstn_of {A : Type} (P : A -> Prop) (n : nat) (l : list A) :
  Forall P l -> Forall P (firstn n l).
Proof.
  intros Hl. revert n. induction Hl as [|x l Hx _ IH]; intros [|n]; simpl;
    constructor; auto.
Qed.

Lemma zero_features_of_empty_text (dimension : Z) :
  0 <= dimension ->
  Forall zero_entry (PineconeStorageTool.feature_list (F:=float) EmptyString dimension).
Proof.
  intros Hd. rewrite feature_list_as_table by exact Hd.
  apply Forall_firstn_of. unfold feature_table. rewrite !Forall_app. repeat split.
  - repeat constructor; left; reflexivity.
  - apply Forall_forall. intros x [c [<- _]]%in_map_iff. right. reflexivity.
  - apply Forall_forall. intros x ->%repeat_spec. right. reflexivity.
Qed.

Lemma zero_sum_of_squares (features : list (num float)) (acc : num float) :
  Forall zero_entry features -> zero_entry acc ->
  zero_entry
    (fold_left
       (fun acc x => PineconeStorageTool.num_add acc (PineconeStorageTool.num_mul x x))
       features acc).
Proof.
  intros Hf. revert acc. induction Hf as [|x features Hx _ IH]; intros acc Hacc; simpl.
  - exact Hacc.
  - apply IH. destruct Hx as [-> | ->], Hacc as [-> | ->];
      [left | right | right | right]; reflexivity.
Qed.

Lemma normalize_zero_features (features : list (num float)) :
  Forall zero_entry features -> PineconeStorageTool.normalize features = features.
Proof.
  intros Hf. unfold PineconeStorageTool.normalize, PineconeStorageTool.sum_squares.
  destruct (zero_sum_of_squares features (Int 0) Hf (or_introl eq_refl)) as [-> | ->];
    reflexivity.
Qed.

(** X6.  A text of whitespace only (the empty text included) is embedded in
    binary64 as a vector of zeros of the requested length: the character
    total clamped to 1 makes every frequency 0/1, the computed norm is 0.0,
    and the vector is returned as it is. *)
Theorem blank_text_embeds_to_zero (s : string) (dimension : Z) :
  blank s = true -> 0 <= dimension ->
  exists v,
    PineconeStorageTool._create_simple_embedding (F:=float) (VStr s) dimension = Ret v
    /\ Z.of_nat (length v) = dimension
    /\ Forall zero_entry v.
Proof.
  intros Hb Hd.
  assert (Ht : strip (lower s) = EmptyString).
  { rewrite (blank_lower s Hb). unfold strip. now rewrite (lstrip_blank s Hb). }
  eexists. split; [apply embedding_of_str|]. rewrite Ht.
  rewrite (normalize_zero_features _ (zero_features_of_empty_text dimension Hd)).
  split; [now apply feature_list_length | now apply zero_features_of_empty_text].
Qed.

Lemma blank_text_embeds_to_zero_witness :
  blank "   " = true /\ 0 <= 384
  /\ exists v,
       PineconeStorageTool._create_simple_embedding (F:=float) (VStr "   ") 384 = Ret v
       /\ Z.of_nat (length v) = 384
       /\ Forall zero_entry v.
Proof.
  assert (Hd : 0 <= 384) by lia.
  split; [reflexivity|]. split; [exact Hd|].
  exact (blank_text_embeds_to_zero "   " 384 eq_refl Hd).
Defined.

(** ** The social publisher: inputs *)

Section FacebookInputs.

Context {F : Type} `{Float F}.

Variable getenv : string -> option string.
Variable net : request F -> res (response F).
Variable repr : value F -> string.

(** X9.  The validation of the social publisher is ordered: a missing token
    is reported whatever the page id and the message are, a missing page id
    is reported only when the token is there, and a blank message only
    when both are. *)
Theorem facebook_validation_order
    (message page_access_token page_id : string) (log : list (request F)) :
  let run := FacebookPublishingTool._run getenv net repr message page_access_token page_id log in
  (nonempty (facebook_access_token getenv page_access_token) = false ->
   run = (Ret FacebookPublishingTool.token_required, log))
  /\ (nonempty (facebook_access_token getenv page_access_token) = true ->
      nonempty (facebook_page_id getenv page_id) = false ->
      run = (Ret FacebookPublishingTool.page_id_required, log))
  /\ (nonempty (facebook_access_token getenv page_access_token) = true ->
      nonempty (facebook_page_id getenv page_id) = true ->
      nonempty (strip message) = false ->
      run = (Ret FacebookPublishingTool.message_empty, log)).
Proof.
  unfold facebook_access_token, facebook_page_id, FacebookPublishingTool._run,
    FacebookPublishingTool.run_body.
  repeat split.
  - intros ->. reflexivity.
  - intros -> ->. reflexivity.
  - intros -> -> ->. cbn [negb]. rewrite orb_true_r. reflexivity.
Qed.

(** X10.  Parameters override the environment: when both the token and the
    page id are passed, the social publisher behaves the same under any
    two environments. *)
Theorem facebook_parameters_override_environment
    (getenv' : string -> option string)
    (message page_access_token page_id : string) (log : list (request F)) :
  page_access_token <> "" -> page_id <> "" ->
  FacebookPublishingTool._run getenv net repr message page_access_token page_id log
  = FacebookPublishingTool._run getenv' net repr message page_access_token page_id log.
Proof.
  intros Ht Hp.
  unfold FacebookPublishingTool._run, FacebookPublishingTool.run_body,
    FacebookPublishingTool.or_else.
  destruct page_access_token; [now destruct Ht|].
  destruct page_id; [now destruct Hp|]. reflexivity.
Qed.

Lemma message_test (message : string) :
  negb (nonempty message) || negb (nonempty (strip message))
  = negb (nonempty (strip message)).
Proof.
  destruct (nonempty (strip message)) eqn:E; [|apply orb_true_r].
  now rewrite (strip_nonempty _ E).
Qed.

(** X11.  Whitespace around the message does not matter: a message and the
    same message with leading or trailing whitespace added give the same
    result and the same request. *)
Theorem facebook_message_is_trimmed
    (message message' page_access_token page_id : string) (log : list (request F)) :
  padding_variant message message' ->
  FacebookPublishingTool._run getenv net repr message' page_access_token page_id log
  = FacebookPublishingTool._run getenv net repr message page_access_token page_id log.
Proof.
  intros (l & r & Hl & Hr & ->).
  unfold FacebookPublishingTool._run, FacebookPublishingTool.run_body.
  rewrite !message_test, (strip_padding l message r Hl Hr). reflexivity.
Qed.

(** X12.  A 200 from the platform is reported as a success when the body
    is not JSON (without the id) or is a JSON object (with its [id], or
    with [Unknown] when there is none); when the body is JSON of any other
    kind the lookup of [id] fails and the call reports an unexpected
    error, although the post was made. *)
Theorem facebook_success_outcomes
    (message page_access_token page_id : string) (log : list (request F))
    (r : response F) :
  facebook_validates getenv message page_access_token page_id = true ->
  net (facebook_request getenv message page_access_token page_id) = Ret r ->
  status_code r = 200 ->
  fst (FacebookPublishingTool._run getenv net repr message page_access_token page_id log)
  = match body_json r with
    | NotJson _ =>
        Ret (fmt [CHECK; " Successfully published to Facebook! (Post ID unavailable)"])
    | Json (VDict d) =>
        Ret (fmt [CHECK; " Successfully published to Facebook! Post ID: ";
                  str repr (match lookup d "id" with
                            | Some post_id => post_id
                            | None => VStr "Unknown"
                            end)])
    | Json v =>
        Ret (fmt [CROSS; " Unexpected Error: '"; type_name v;
                  "' object has no attribute 'get'"])
    end.
Proof.
  intros Hv Hnet Hs. unfold FacebookPublishingTool._run.
  rewrite (facebook_body_posts getenv net repr _ _ _ Hv).
  unfold try_except, bind, post. rewrite Hnet.
  unfold FacebookPublishingTool.on_response, FacebookPublishingTool.or_if_not_json,
    try_except, bind, lift, json.
  rewrite Hs. cbn [Z.eqb Pos.eqb].
  destruct (body_json r) as [[| b | [z|f] | s | l | d]|msg]; reflexivity.
Qed.

End FacebookInputs.

(** ** Failures of the network *)

Section NetworkFailures.

Context {F : Type} `{Float F}.

Variable getenv : string -> option string.
Variable net : request F -> res (response F).
Variable repr : value F -> string.

(** X13.  When the request of the social publisher fails in the network,
    the call answers with the message of the first matching handler
    (timeout, connection failure, other request failure with its text, any
    other exception with its text) and has issued that one request; only a
    signal that is not an [Exception] gets through. *)
Theorem facebook_reports_network_failure
    (message page_access_token page_id : string) (log : list (request F)) (e : exn) :
  facebook_validates getenv message page_access_token page_id = true ->
  net (facebook_request getenv message page_access_token page_id) = Raise e ->
  FacebookPublishingTool._run getenv net repr message page_access_token page_id log
  = (reported
       (fmt [CROSS; " Error: Request timed out. Facebook API may be temporarily unavailable."])
       (fmt [CROSS; " Error: Failed to connect to Facebook API. Please check your internet connection."])
       (fmt [CROSS; " Network Error: "])
       (fmt [CROSS; " Unexpected Error: "])
       e,
     log ++ [facebook_request getenv message page_access_token page_id]).
Proof.
  intros Hv Hnet. unfold FacebookPublishingTool._run.
  rewrite (facebook_body_posts getenv net repr _ _ _ Hv).
  unfold try_except, bind, post, reported. rewrite Hnet.
  destruct e as [[] msg]; reflexivity.
Qed.

(** X14.  The same for the CMS publisher, with its own four messages. *)
Theorem squarespace_reports_network_failure
    (title body : string) (excerpt : option string) (tags : option (list string))
    (log : list (request F)) (e : exn) :
  squarespace_validates getenv = true ->
  net (squarespace_request getenv title body excerpt tags) = Raise e ->
  SquarespacePublishingTool._run getenv net repr title body excerpt tags log
  = (reported
       (fmt [CROSS; " Error: Request timed out. Please try again."])
       (fmt [CROSS; " Error: Could not connect to Squarespace API. Please check your internet connection."])
       (fmt [CROSS; " Error making API request: "])
       (fmt [CROSS; " Unexpected error: "])
       e,
     log ++ [squarespace_request getenv title body excerpt tags]).
Proof.
  intros Hv Hnet. unfold SquarespacePublishingTool._run.
  rewrite (squarespace_body_posts getenv net repr _ _ _ _ Hv).
  unfold try_except, bind, post, reported. rewrite Hnet.
  destruct e as [[] msg]; reflexivity.
Qed.

(** Once its settings are present and the content type is allowed, the
    vector-store client embeds the text, issues its request and answers
    from the response or from the exception. *)
Lemma pinecone_run_posts (content_id content_text : string)
    (performance_metrics : value F) (content_type : string)
    (story_characteristics : value F) (log : list (request F)) :
  pinecone_configured getenv = true ->
  PineconeStorageTool.allowed_content_type content_type = true ->
  let req := pinecone_request getenv content_id content_text performance_metrics
               content_type story_characteristics (stored_embedding content_text) in
  PineconeStorageTool._run getenv net repr content_id content_text
    performance_metrics content_type story_characteristics log
  = (match net req with
     | Ret r => pinecone_outcome repr content_id (setting getenv "PINECONE_INDEX_NAME") r
     | Raise e =>
         reported
           "Error: Request to Pinecone API timed out. Please try again."
           "Error: Could not connect to Pinecone API. Please check your internet connection and Pinecone configuration."
           "Error: Request failed - "
           "Error: An unexpected error occurred - "
           e
     end, log ++ [req]).
Proof.
  intros Hc Ha req. subst req. revert Hc.
  unfold pinecone_configured, present, pinecone_request, setting, stored_embedding,
    word_count, PineconeStorageTool._run, PineconeStorageTool.run_body, try_except.
  intros Hc.
  destruct (getenv "PINECONE_API_KEY") as [k|]; [|discriminate Hc].
  destruct (getenv "PINECONE_ENVIRONMENT") as [e|]; [|now rewrite andb_false_r in Hc].
  destruct (getenv "PINECONE_INDEX_NAME") as [i|]; [|now rewrite andb_false_r in Hc].
  apply andb_prop in Hc. destruct Hc as [[Hk He]%andb_prop Hi].
  cbn [forallb]. rewrite Hk, He, Hi, Ha. cbn [andb negb].
  unfold bind at 1. cbn [lift PineconeStorageTool._create_simple_embedding
    PineconeStorageTool.create_simple_embedding_body].
  unfold bind at 1, post.
  match goal with |- context [net ?q] => destruct (net q) as [r|ex] end.
  - unfold pinecone_outcome, PineconeStorageTool.error_message, bind, lift, ret, json.
    destruct (status_code r =? 200).
    + destruct (body_json r) as [[| b | [z|f] | s | l | d]|msg]; reflexivity.
    + destruct (body_json r) as [v|msg]; reflexivity.
  - unfold reported. destruct ex as [[] msg]; reflexivity.
Qed.

(** X15.  The same for the vector-store client: a failure of its request
    in the network is answered with the message of the first matching
    handler, after exactly that one request. *)
Theorem pinecone_reports_network_failure
    (content_id content_text : string) (performance_metrics : value F)
    (content_type : string) (story_characteristics : value F)
    (log : list (request F)) (e : exn) :
  pinecone_configured getenv = true ->
  PineconeStorageTool.allowed_content_type content_type = true ->
  let req := pinecone_request getenv content_id content_text performance_metrics
               content_type story_characteristics (stored_embedding content_text) in
  net req = Raise e ->
  PineconeStorageTool._run getenv net repr content_id content_text
    performance_metrics content_type story_characteristics log
  = (reported
       "Error: Request to Pinecone API timed out. Please try again."
       "Error: Could not connect to Pinecone API. Please check your internet connection and Pinecone configuration."
       "Error: Request failed - "
       "Error: An unexpected error occurred - "
       e,
     log ++ [req]).
Proof.
  intros Hc Ha req Hnet.
  rewrite (pinecone_run_posts _ _ _ _ _ log Hc Ha). fold req. now rewrite Hnet.
Qed.

End NetworkFailures.

(** ** The vector-store client: request and answers *)

Section PineconeAnswers.

Context {F : Type} `{Float F}.

Variable getenv : string -> option string.
Variable net : request F -> res (response F).
Variable repr : value F -> string.

Lemma pinecone_unconfigured (content_id content_text : string)
    (performance_metrics : value F) (content_type : string)
    (story_characteristics : value F) (log : list (request F)) :
  pinecone_configured getenv = false ->
  PineconeStorageTool._run getenv net repr content_id content_text
    performance_metrics content_type story_characteristics log
  = (Ret PineconeStorageTool.missing_environment, log).
Proof.
  unfold pinecone_configured, present, PineconeStorageTool._run,
    PineconeStorageTool.run_body, try_except.
  intros Hc.
  destruct (getenv "PINECONE_API_KEY") as [k|]; [|reflexivity].
  destruct (getenv "PINECONE_ENVIRONMENT") as [e|]; [|reflexivity].
  destruct (getenv "PINECONE_INDEX_NAME") as [i|]; [|reflexivity].
  cbn [forallb]. rewrite andb_true_r, andb_assoc, Hc. reflexivity.
Qed.

(** X16.  The vector-store client issues exactly one request when its three
    settings are present and the content type is allowed, and none
    otherwise, whatever the network answers or raises. *)
Theorem pinecone_posts_at_most_once
    (content_id content_text : string) (performance_metrics : value F)
    (content_type : string) (story_characteristics : value F)
    (log : list (request F)) :
  snd (PineconeStorageTool._run getenv net repr content_id content_text
         performance_metrics content_type story_characteristics log)
  = if pinecone_configured getenv && PineconeStorageTool.allowed_content_type content_type
    then log ++ [pinecone_request getenv content_id content_text performance_metrics
                   content_type story_characteristics (stored_embedding content_text)]
    else log.
Proof.
  destruct (pinecone_configured getenv) eqn:Hc.
  - destruct (PineconeStorageTool.allowed_content_type content_type) eqn:Ha; cbn [andb].
    + now rewrite (pinecone_run_posts getenv net repr _ _ _ _ _ log Hc Ha).
    + unfold PineconeStorageTool._run.
      rewrite try_except_log by (repeat constructor; intros ?; apply quiet_ret).
      now rewrite (pinecone_body_rejects getenv net repr content_id content_text
                     performance_metrics content_type story_characteristics Ha).
  - cbn [andb]. now rewrite pinecone_unconfigured.
Qed.

Lemma prefix_slice_spec (n : nat) (s : string) :
  String.length (prefix_slice n s) = Nat.min n (String.length s)
  /\ exists rest, s = (prefix_slice n s ++ rest)%string.
Proof.
  unfold prefix_slice. revert n. induction s as [|c s IH]; intros n.
  - destruct n; simpl; (split; [reflexivity | now exists EmptyString]).
  - destruct n as [|n]; simpl.
    + split; [reflexivity | now exists (String c s)].
    + destruct (IH n) as [Hlen [rest Hrest]]. rewrite Hlen.
      split; [reflexivity|]. exists rest. now rewrite <- Hrest.
Qed.

(** X17.  The request of the vector-store client carries one vector: its
    id is the content id, it has 384 values, and its metadata holds the
    content type, the first 1000 characters of the text (the whole text
    when it is shorter) and the length of the whole text. *)
Theorem pinecone_request_payload
    (content_id content_text : string) (performance_metrics : value F)
    (content_type : string) (story_characteristics : value F)
    (log : list (request F)) :
  pinecone_configured getenv = true ->
  PineconeStorageTool.allowed_content_type content_type = true ->
  exists req values metadata stored,
    snd (PineconeStorageTool._run getenv net repr content_id content_text
           performance_metrics content_type story_characteristics log)
    = log ++ [req]
    /\ data req
       = JsonData (VDict [ ("vectors",
                            VList [ VDict [ ("id", VStr content_id);
                                            ("values", VList (map VNum values));
                                            ("metadata", VDict metadata) ] ]) ])
    /\ length values = 384%nat
    /\ lookup metadata "content_type" = Some (VStr content_type)
    /\ lookup metadata "content_text" = Some (VStr stored)
    /\ String.length stored = Nat.min 1000 (String.length content_text)
    /\ (exists rest, content_text = (stored ++ rest)%string)
    /\ lookup metadata "text_length" = Some (VNum (Int (len content_text))).
Proof.
  intros Hc Ha.
  rewrite (pinecone_run_posts getenv net repr _ _ _ _ _ log Hc Ha).
  destruct (prefix_slice_spec 1000 content_text) as [Hlen Hrest].
  eexists. exists (stored_embedding content_text). eexists. eexists.
  split; [reflexivity|]. split; [reflexivity|]. split.
  - unfold stored_embedding. rewrite normalize_length.
    apply Nat2Z.inj. now rewrite feature_list_length.
  - repeat split; try reflexivity; assumption.
Qed.

(** X18.  An answer with a status other than 200 is reported as an API
    error naming the status, followed by the body as JSON when it decodes
    and by the raw text when it does not; the call does not raise. *)
Theorem pinecone_reports_api_error
    (content_id content_text : string) (performance_metrics : value F)
    (content_type : string) (story_characteristics : value F)
    (log : list (request F)) (r : response F) :
  pinecone_configured getenv = true ->
  PineconeStorageTool.allowed_content_type content_type = true ->
  net (pinecone_request getenv content_id content_text performance_metrics
         content_type story_characteristics (stored_embedding content_text)) = Ret r ->
  status_code r <> 200 ->
  fst (PineconeStorageTool._run getenv net repr content_id content_text
         performance_metrics content_type story_characteristics log)
  = Ret (fmt [ "Error: ";
               fmt [ fmt ["Pinecone API error (status "; str_of_int (status_code r); ")"];
                     ": ";
                     match body_json r with
                     | Json error_detail => str repr error_detail
                     | NotJson _ => text r
                     end ] ]).
Proof.
  intros Hc Ha Hnet Hs.
  rewrite (pinecone_run_posts getenv net repr _ _ _ _ _ log Hc Ha).
  cbv zeta. rewrite Hnet. unfold pinecone_outcome.
  apply Z.eqb_neq in Hs. now rewrite Hs.
Qed.

(** X19.  An answer with status 200 is reported as a success, with the
    [upsertedCount] of the body or 0 when the body has none, when the body
    is a JSON object; a 200 whose body is not JSON, or is JSON of another
    kind, is reported as an error although the upsert was accepted. *)
Theorem pinecone_success_outcomes
    (content_id content_text : string) (performance_metrics : value F)
    (content_type : string) (story_characteristics : value F)
    (log : list (request F)) (r : response F) :
  pinecone_configured getenv = true ->
  PineconeStorageTool.allowed_content_type content_type = true ->
  net (pinecone_request getenv content_id content_text performance_metrics
         content_type story_characteristics (stored_embedding content_text)) = Ret r ->
  status_code r = 200 ->
  fst (PineconeStorageTool._run getenv net repr content_id content_text
         performance_metrics content_type story_characteristics log)
  = match body_json r with
    | Json (VDict d) =>
        Ret (fmt [ "Success: Stored performance data for content_id '"; content_id;
                   "'. Upserted ";
                   str repr (match lookup d "upsertedCount" with
                             | Some n => n
                             | None => VNum (Int 0)
                             end);
                   " vector(s) in Pinecone index '"; setting getenv "PINECONE_INDEX_NAME";
                   "'." ])
    | Json v =>
        Ret (fmt [ "Error: An unexpected error occurred - '"; type_name v;
                   "' object has no attribute 'get'" ])
    | NotJson msg => Ret (fmt ["Error: Request failed - "; msg])
    end.
Proof.
  intros Hc Ha Hnet Hs.
  rewrite (pinecone_run_posts getenv net repr _ _ _ _ _ log Hc Ha).
  cbv zeta. rewrite Hnet. unfold pinecone_outcome. now rewrite Hs.
Qed.

End PineconeAnswers.

(** ** The CMS publisher: payload and answers *)

Section SquarespaceAnswers.

Context {F : Type} `{Float F}.

Variable getenv : string -> option string.
Variable net : request F -> res (response F).
Variable repr : value F -> string.

(** X20.  The payload of the CMS publisher always has the title, the body,
    [publishOn] = [now] and [type] = [text]; the excerpt and the tags are
    members only when they were given and are not empty, and are left out
    (not sent empty) otherwise. *)
Theorem squarespace_payload_fields (title body : string) (excerpt : option string)
    (tags : option (list string)) :
  exists d,
    SquarespacePublishingTool.post_data (F:=F) title body excerpt tags = VDict d
    /\ lookup d "title" = Some (VStr title)
    /\ lookup d "body" = Some (VStr body)
    /\ lookup d "publishOn" = Some (VStr "now")
    /\ lookup d "type" = Some (VStr "text")
    /\ lookup d "excerpt"
       = match excerpt with
         | Some e => if nonempty e then Some (VStr e) else None
         | None => None
         end
    /\ lookup d "tags"
       = match tags with
         | Some (t :: ts) => Some (VList (map VStr (t :: ts)))
         | _ => None
         end.
Proof.
  unfold SquarespacePublishingTool.post_data.
  destruct excerpt as [e|]; [destruct (nonempty e)|];
    destruct tags as [[|t ts]|]; eexists; repeat split; reflexivity.
Qed.

(** X21.  A 200 or a 201 from the CMS is reported as published, with the
    title, the id and the URL, when the body is a JSON object with a
    non-empty [fullUrl]; as created with the id but without a URL when the
    object has no such member; as probably created when the body is not
    JSON; and as an unexpected error when the body is JSON of another
    kind. *)
Theorem squarespace_success_outcomes
    (title body : string) (excerpt : option string) (tags : option (list string))
    (log : list (request F)) (r : response F) :
  squarespace_validates getenv = true ->
  net (squarespace_request getenv title body excerpt tags) = Ret r ->
  status_code r = 200 \/ status_code r = 201 ->
  fst (SquarespacePublishingTool._run getenv net repr title body excerpt tags log)
  = match body_json r with
    | NotJson _ =>
        Ret (fmt [ CHECK; " Blog post appears to have been created (HTTP ";
                   str_of_int (status_code r); "), but response format was unexpected." ])
    | Json (VDict d) =>
        let post_id := match lookup d "id" with Some v => v | None => VStr "" end in
        let post_url := match lookup d "fullUrl" with Some v => v | None => VStr "" end in
        if truthy post_url
        then Ret (fmt [ CHECK; " Blog post published successfully!"; NL;
                        "Title: "; title; NL;
                        "Post ID: "; str repr post_id; NL;
                        "Public URL: "; str repr post_url ])
        else Ret (fmt [ CHECK; " Blog post created successfully with ID: ";
                        str repr post_id; ", but URL not available in response." ])
    | Json v =>
        Ret (fmt [CROSS; " Unexpected error: '"; type_name v;
                  "' object has no attribute 'get'"])
    end.
Proof.
  intros Hv Hnet Hs. unfold SquarespacePublishingTool._run.
  rewrite (squarespace_body_posts getenv net repr _ _ _ _ Hv).
  unfold try_except, bind, post. rewrite Hnet.
  unfold SquarespacePublishingTool.on_response, SquarespacePublishingTool.or_if_not_json,
    try_except, bind, lift, json.
  assert (Hs' : (status_code r =? 200) || (status_code r =? 201) = true).
  { destruct Hs as [-> | ->]; reflexivity. }
  rewrite Hs'.
  destruct (body_json r) as [[| b | [z|f] | s | l | d]|msg]; try reflexivity.
  cbn [get]. cbv zeta.
  destruct (truthy match lookup d "fullUrl" with Some x => x | None => VStr "" end);
    reflexivity.
Qed.

End SquarespaceAnswers.

(** ** The publishers: error statuses *)

Section ErrorStatuses.

Context {F : Type} `{Float F}.

Variable getenv : string -> option string.
Variable net : request F -> res (response F).
Variable repr : value F -> string.

(** X23.  What the social publisher returns for every status other than
    200: the fixed messages of 401, 403, 404 (with the page id) and 429
    whatever the body; for 400 and for any other status the message built
    from the body: a fixed text when the body is not JSON, the [message] of
    the [error] object (or a default) when the body is a JSON object whose
    [error] is absent or an object, and the catch-all message when the body
    or its [error] is JSON of any other kind. *)
Theorem facebook_error_outcomes
    (message page_access_token page_id : string) (log : list (request F))
    (r : response F) :
  facebook_validates getenv message page_access_token page_id = true ->
  net (facebook_request getenv message page_access_token page_id) = Ret r ->
  status_code r <> 200 ->
  let status := status_code r in
  let unexpected (v : value F) :=
    Ret (fmt [CROSS; " Unexpected Error: '"; type_name v;
              "' object has no attribute 'get'"]) in
  fst (FacebookPublishingTool._run getenv net repr message page_access_token page_id log)
  = if status =? 401 then Ret FacebookPublishingTool.invalid_token
    else if status =? 403 then Ret FacebookPublishingTool.insufficient_permissions
    else if status =? 404
    then Ret (FacebookPublishingTool.page_not_found (facebook_page_id getenv page_id))
    else if status =? 429 then Ret FacebookPublishingTool.rate_limited
    else
      match body_json r with
      | NotJson _ =>
          if status =? 400
          then Ret (fmt [CROSS; " Facebook API Error (400): Invalid request parameters"])
          else Ret (fmt [CROSS; " Facebook API Error: HTTP "; str_of_int status; " - ";
                         reason r])
      | Json (VDict d) =>
          match (match lookup d "error" with Some v => v | None => VDict [] end) with
          | VDict e =>
              if status =? 400
              then Ret (fmt [CROSS; " Facebook API Error (400): ";
                             str repr (match lookup e "message" with
                                       | Some m => m
                                       | None => VStr "Bad request"
                                       end)])
              else Ret (fmt [CROSS; " Facebook API Error ("; str_of_int status; "): ";
                             str repr (match lookup e "message" with
                                       | Some m => m
                                       | None => VStr (fmt ["HTTP "; str_of_int status])
                                       end)])
          | v => unexpected v
          end
      | Json v => unexpected v
      end.
Proof.
  intros Hv Hnet Hs status unexpected. subst status unexpected.
  unfold FacebookPublishingTool._run.
  rewrite (facebook_body_posts getenv net repr _ _ _ Hv).
  unfold try_except at 1, bind, post. rewrite Hnet.
  unfold FacebookPublishingTool.on_response, FacebookPublishingTool.or_if_not_json,
    try_except, bind, lift, json.
  apply Z.eqb_neq in Hs. rewrite Hs.
  destruct (Z.eqb_spec (status_code r) 400) as [E400|_].
  - rewrite E400. cbn [Z.eqb Pos.eqb].
    destruct (body_json r) as [[| b | [z|f] | s | l | d]|msg]; try reflexivity.
    cbn [get]. destruct (lookup d "error") as [[| b | [z|f] | s | l | e]|]; reflexivity.
  - destruct (status_code r =? 401); [reflexivity|].
    destruct (status_code r =? 403); [reflexivity|].
    destruct (status_code r =? 404); [reflexivity|].
    destruct (status_code r =? 429); [reflexivity|].
    destruct (body_json r) as [[| b | [z|f] | s | l | d]|msg]; try reflexivity.
    cbn [get]. destruct (lookup d "error") as [[| b | [z|f] | s | l | e]|]; reflexivity.
Qed.

(** X24.  What the CMS publisher returns for every status other than 200
    and 201: the fixed messages of 401, 403, 404 and 429 whatever the body;
    for 400 and for any other status the message built from the body: a
    fixed text (with the first 200 characters of the response for the
    other statuses) when the body is not JSON, the [message] of the body
    (or a default) when it is a JSON object, and the catch-all message when
    it is JSON of any other kind. *)
Theorem squarespace_error_outcomes
    (title body : string) (excerpt : option string) (tags : option (list string))
    (log : list (request F)) (r : response F) :
  squarespace_validates getenv = true ->
  net (squarespace_request getenv title body excerpt tags) = Ret r ->
  status_code r <> 200 -> status_code r <> 201 ->
  let status := status_code r in
  let unexpected (v : value F) :=
    Ret (fmt [CROSS; " Unexpected error: '"; type_name v;
              "' object has no attribute 'get'"]) in
  fst (SquarespacePublishingTool._run getenv net repr title body excerpt tags log)
  = if status =? 401 then Ret SquarespacePublishingTool.unauthorized
    else if status =? 403 then Ret SquarespacePublishingTool.forbidden
    else if status =? 404 then Ret SquarespacePublishingTool.site_not_found
    else if status =? 429 then Ret SquarespacePublishingTool.rate_limited
    else
      match body_json r with
      | NotJson _ =>
          if status =? 400
          then Ret (fmt [CROSS; " Error creating blog post: Bad request (HTTP 400)"])
          else Ret (fmt [CROSS; " Error creating blog post: HTTP "; str_of_int status;
                         " - "; prefix_slice 200 (text r)])
      | Json (VDict d) =>
          if status =? 400
          then Ret (fmt [CROSS; " Error creating blog post: ";
                         str repr (match lookup d "message" with
                                   | Some m => m
                                   | None => VStr "Bad request"
                                   end);
                         " (HTTP 400)"])
          else Ret (fmt [CROSS; " Error creating blog post: ";
                         str repr (match lookup d "message" with
                                   | Some m => m
                                   | None => VStr (fmt ["HTTP "; str_of_int status])
                                   end)])
      | Json v => unexpected v
      end.
Proof.
  intros Hv Hnet Hs Hs' status unexpected. subst status unexpected.
  unfold SquarespacePublishingTool._run.
  rewrite (squarespace_body_posts getenv net repr _ _ _ _ Hv).
  unfold try_except at 1, bind, post. rewrite Hnet.
  unfold SquarespacePublishingTool.on_response, SquarespacePublishingTool.or_if_not_json,
    try_except, bind, lift, json.
  apply Z.eqb_neq in Hs, Hs'. rewrite Hs, Hs'. cbn [orb].
  destruct (Z.eqb_spec (status_code r) 400) as [E400|_].
  - rewrite E400. cbn [Z.eqb Pos.eqb].
    destruct (body_json r) as [[| b | [z|f] | s | l | d]|msg]; reflexivity.
  - destruct (status_code r =? 401); [reflexivity|].
    destruct (status_code r =? 403); [reflexivity|].
    destruct (status_code r =? 404); [reflexivity|].
    destruct (status_code r =? 429); [reflexivity|].
    destruct (body_json r) as [[| b | [z|f] | s | l | d]|msg]; reflexivity.
Qed.

End ErrorStatuses.

(** ** Instances of the further properties *)

Lemma feature_list_closed_form_witness :
  0 <= 50
  /\ PineconeStorageTool.feature_list (F:=float) "a volunteer story" 50
     = firstn (Z.to_nat 50) (feature_table "a volunteer story" 50).
Proof.
  assert (Hd : 0 <= 50) by lia.
  split; [exact Hd|].
  exact (feature_list_closed_form (F:=float) "a volunteer story" 50 Hd).
Defined.

Lemma facebook_parameters_override_environment_witness :
  "tok" <> "" /\ "42" <> ""
  /\ FacebookPublishingTool._run no_settings times_out no_repr "Hello" "tok" "42" []
     = FacebookPublishingTool._run all_settings times_out no_repr "Hello" "tok" "42" [].
Proof.
  assert (Ht : "tok" <> "") by discriminate.
  assert (Hp : "42" <> "") by discriminate.
  split; [exact Ht|]. split; [exact Hp|].
  exact (facebook_parameters_override_environment no_settings times_out no_repr
           all_settings "Hello" "tok" "42" [] Ht Hp).
Defined.

Lemma facebook_message_is_trimmed_witness :
  padding_variant "Hello" "  Hello "
  /\ FacebookPublishingTool._run all_settings (answers posted) no_repr "  Hello " "" "" []
     = FacebookPublishingTool._run all_settings (answers posted) no_repr "Hello" "" "" [].
Proof.
  assert (Hv : padding_variant "Hello" "  Hello ").
  { exists "  ", " ". repeat split; reflexivity. }
  split; [exact Hv|].
  exact (facebook_message_is_trimmed all_settings (answers posted) no_repr
           "Hello" "  Hello " "" "" [] Hv).
Defined.

Lemma facebook_success_outcomes_witness :
  facebook_validates all_settings "Hello" "" "" = true
  /\ answers posted (facebook_request all_settings "Hello" "" "") = Ret posted
  /\ status_code posted = 200
  /\ fst (FacebookPublishingTool._run all_settings (answers posted) no_repr "Hello" "" "" [])
     = Ret (fmt [CHECK; " Successfully published to Facebook! Post ID: 1234567890_42"]).
Proof.
  repeat (split; [reflexivity|]).
  exact (facebook_success_outcomes all_settings (answers posted) no_repr
           "Hello" "" "" [] posted eq_refl eq_refl eq_refl).
Defined.

Lemma facebook_reports_network_failure_witness :
  facebook_validates all_settings "Hello" "" "" = true
  /\ unreachable (facebook_request all_settings "Hello" "" "")
     = Raise (mk_exn ConnectionError "Max retries exceeded")
  /\ FacebookPublishingTool._run all_settings unreachable no_repr "Hello" "" "" []
     = (Ret (fmt [CROSS; " Error: Failed to connect to Facebook API. Please check your internet connection."]),
        [facebook_request all_settings "Hello" "" ""]).
Proof.
  repeat (split; [reflexivity|]).
  exact (facebook_reports_network_failure all_settings unreachable no_repr
           "Hello" "" "" [] (mk_exn ConnectionError "Max retries exceeded")
           eq_refl eq_refl).
Defined.

Lemma squarespace_reports_network_failure_witness :
  squarespace_validates all_settings = true
  /\ times_out (squarespace_request all_settings "A story" "<p>text</p>" None None)
     = Raise (mk_exn Timeout "HTTPSConnectionPool: Read timed out.")
  /\ SquarespacePublishingTool._run all_settings times_out no_repr
       "A story" "<p>text</p>" None None []
     = (Ret (fmt [CROSS; " Error: Request timed out. Please try again."]),
        [squarespace_request all_settings "A story" "<p>text</p>" None None]).
Proof.
  repeat (split; [reflexivity|]).
  exact (squarespace_reports_network_failure all_settings times_out no_repr
           "A story" "<p>text</p>" None None []
           (mk_exn Timeout "HTTPSConnectionPool: Read timed out.") eq_refl eq_refl).
Defined.

Lemma pinecone_reports_network_failure_witness :
  pinecone_configured all_settings = true
  /\ PineconeStorageTool.allowed_content_type "blog_post" = true
  /\ times_out (pinecone_request all_settings "S1" "A volunteer story" sample_metrics
                  "blog_post" (VDict []) (stored_embedding "A volunteer story"))
     = Raise (mk_exn Timeout "HTTPSConnectionPool: Read timed out.")
  /\ fst (PineconeStorageTool._run all_settings times_out no_repr "S1" "A volunteer story"
            sample_metrics "blog_post" (VDict []) [])
     = Ret "Error: Request to Pinecone API timed out. Please try again.".
Proof.
  repeat (split; [reflexivity|]).
  exact (f_equal fst
           (pinecone_reports_network_failure all_settings times_out no_repr
              "S1" "A volunteer story" sample_metrics "blog_post" (VDict []) []
              (mk_exn Timeout "HTTPSConnectionPool: Read timed out.")
              eq_refl eq_refl eq_refl)).
Defined.

Lemma pinecone_request_payload_witness :
  pinecone_configured all_settings = true
  /\ PineconeStorageTool.allowed_content_type "facebook_post" = true
  /\ exists req,
       snd (PineconeStorageTool._run all_settings (answers upserted) no_repr "S1"
              "A volunteer story" sample_metrics "facebook_post" (VDict []) [])
       = [] ++ [req].
Proof.
  repeat (split; [reflexivity|]).
  destruct (pinecone_request_payload all_settings (answers upserted) no_repr "S1"
              "A volunteer story" sample_metrics "facebook_post" (VDict []) []
              eq_refl eq_refl) as (req & _ & _ & _ & Hlog & _).
  exists req. exact Hlog.
Defined.

Lemma pinecone_reports_api_error_witness :
  pinecone_configured all_settings = true
  /\ PineconeStorageTool.allowed_content_type "blog_post" = true
  /\ answers unavailable
       (pinecone_request all_settings "S1" "A volunteer story" sample_metrics
          "blog_post" (VDict []) (stored_embedding "A volunteer story"))
     = Ret unavailable
  /\ status_code unavailable <> 200
  /\ fst (PineconeStorageTool._run all_settings (answers unavailable) no_repr "S1"
            "A volunteer story" sample_metrics "blog_post" (VDict []) [])
     = Ret "Error: Pinecone API error (status 503): Service Unavailable".
Proof.
  assert (Hs : status_code unavailable <> 200) by discriminate.
  repeat (split; [reflexivity|]). split; [exact Hs|].
  exact (pinecone_reports_api_error all_settings (answers unavailable) no_repr "S1"
           "A volunteer story" sample_metrics "blog_post" (VDict []) [] unavailable
           eq_refl eq_refl eq_refl Hs).
Defined.

Lemma pinecone_success_outcomes_witness :
  pinecone_configured all_settings = true
  /\ PineconeStorageTool.allowed_content_type "blog_post" = true
  /\ answers upserted
       (pinecone_request all_settings "S1" "A volunteer story" sample_metrics
          "blog_post" (VDict []) (stored_embedding "A volunteer story"))
     = Ret upserted
  /\ status_code upserted = 200
  /\ fst (PineconeStorageTool._run all_settings (answers upserted) no_repr "S1"
            "A volunteer story" sample_metrics "blog_post" (VDict []) [])
     = Ret "Success: Stored performance data for content_id 'S1'. Upserted 1 vector(s) in Pinecone index 'stories'.".
Proof.
  repeat (split; [reflexivity|]).
  exact (pinecone_success_outcomes all_settings (answers upserted) no_repr "S1"
           "A volunteer story" sample_metrics "blog_post" (VDict []) [] upserted
           eq_refl eq_refl eq_refl eq_refl).
Defined.

Lemma squarespace_success_outcomes_witness :
  squarespace_validates all_settings = true
  /\ answers blog_created (squarespace_request all_settings "A story" "<p>text</p>" None None)
     = Ret blog_created
  /\ (status_code blog_created = 200 \/ status_code blog_created = 201)
  /\ fst (SquarespacePublishingTool._run all_settings (answers blog_created) no_repr
            "A story" "<p>text</p>" None None [])
     = Ret (fmt [ CHECK; " Blog post published successfully!"; NL;
                  "Title: A story"; NL; "Post ID: 5f1"; NL;
                  "Public URL: https://example.org/blog/a-story" ]).
Proof.
  assert (Hs : status_code blog_created = 200 \/ status_code blog_created = 201)
    by (right; reflexivity).
  repeat (split; [reflexivity|]). split; [exact Hs|].
  exact (squarespace_success_outcomes all_settings (answers blog_created) no_repr
           "A story" "<p>text</p>" None None [] blog_created eq_refl eq_refl Hs).
Defined.

Lemma facebook_error_outcomes_witness :
  facebook_validates all_settings "Hello" "" "" = true
  /\ answers bad_token (facebook_request all_settings "Hello" "" "") = Ret bad_token
  /\ status_code bad_token <> 200
  /\ fst (FacebookPublishingTool._run all_settings (answers bad_token) no_repr
            "Hello" "" "" [])
     = Ret (fmt [CROSS; " Facebook API Error (400): Invalid OAuth access token."]).
Proof.
  assert (Hs : status_code bad_token <> 200) by discriminate.
  repeat (split; [reflexivity|]). split; [exact Hs|].
  exact (facebook_error_outcomes all_settings (answers bad_token) no_repr
           "Hello" "" "" [] bad_token eq_refl eq_refl Hs).
Defined.

Lemma squarespace_error_outcomes_witness :
  squarespace_validates all_settings = true
  /\ answers server_error (squarespace_request all_settings "A story" "<p>text</p>" None None)
     = Ret server_error
  /\ status_code server_error <> 200 /\ status_code server_error <> 201
  /\ fst (SquarespacePublishingTool._run all_settings (answers server_error) no_repr
            "A story" "<p>text</p>" None None [])
     = Ret (fmt [CROSS; " Error creating blog post: HTTP 500 - <html>Internal Server Error</html>"]).
Proof.
  assert (Hs : status_code server_error <> 200) by discriminate.
  assert (Hs' : status_code server_error <> 201) by discriminate.
  repeat (split; [reflexivity|]). split; [exact Hs|]. split; [exact Hs'|].
  exact (squarespace_error_outcomes all_settings (answers server_error) no_repr
           "A story" "<p>text</p>" None None [] server_error eq_refl eq_refl Hs Hs').
Defined.

(** ** Normalizing a text twice *)

Lemma isspace_lower_char (c : ascii) : isspace (lower_char c) = isspace c.
Proof. each_char c. Qed.

Lemma lower_idempotent (s : string) : lower (lower s) = lower s.
Proof.
  induction s as [|c s IH]; simpl; [reflexivity|].
  now rewrite lower_char_idempotent, IH.
Qed.

Lemma lower_lstrip (s : string) : lower (lstrip s) = lstrip (lower s).
Proof.
  induction s as [|c s IH]; simpl; [reflexivity|].
  rewrite isspace_lower_char. destruct (isspace c); [exact IH | reflexivity].
Qed.

Lemma lower_rstrip (s : string) : lower (rstrip s) = rstrip (lower s).
Proof.
  induction s as [|c s IH]; simpl; [reflexivity|].
  rewrite <- IH, isspace_lower_char.
  destruct (rstrip s) as [|c' r]; simpl; [destruct (isspace c)|]; reflexivity.
Qed.

Lemma rstrip_idempotent (s : string) : rstrip (rstrip s) = rstrip s.
Proof.
  induction s as [|c s IH]; simpl; [reflexivity|].
  destruct (rstrip s) as [|c' r] eqn:E.
  - destruct (isspace c) eqn:Ec; simpl; [reflexivity | now rewrite Ec].
  - change (rstrip (String c (String c' r))) with
      (match rstrip (String c' r) with
       | EmptyString => if isspace c then EmptyString else String c EmptyString
       | r' => String c r'
       end).
    now rewrite IH.
Qed.

Lemma lstrip_rstrip_lstrip (s : string) :
  lstrip (rstrip (lstrip s)) = rstrip (lstrip s).
Proof.
  induction s as [|c s IH]; simpl; [reflexivity|].
  destruct (isspace c) eqn:Ec; [exact IH|].
  cbn [rstrip]. destruct (rstrip s); rewrite ?Ec; cbn [lstrip]; now rewrite Ec.
Qed.

Lemma strip_idempotent (s : string) : strip (strip s) = strip s.
Proof.
  unfold strip. now rewrite lstrip_rstrip_lstrip, rstrip_idempotent.
Qed.

(** X22.  Normalizing is idempotent under the embedding: a text and its
    lowercased, stripped form have the same embedding, for any arithmetic
    and any dimension. *)
Theorem embedding_of_normalized_text {F : Type} `{Float F} (t : string) (dimension : Z) :
  PineconeStorageTool._create_simple_embedding (F:=F) (VStr (strip (lower t))) dimension
  = PineconeStorageTool._create_simple_embedding (VStr t) dimension.
Proof.
  rewrite !embedding_of_str. unfold strip at 2.
  rewrite lower_rstrip, lower_lstrip, lower_idempotent.
  fold (strip (lower t)). now rewrite strip_idempotent.
Qed.
